(** * Nimble server: the request dispatcher, the connection life cycle and
      the authoritative step trim, embedded from
      [src/lib/server.c], [src/lib/req_step.c],
      [src/lib/transport_connection.c] and
      [include/nimble-server/participant_connection.h].

    C integers are carried by [Z] with the wrap-around of their width written
    out.  Structs are records, arrays are lists read with [!!] and written
    with [<[_:=_]>]; an access outside the array, or the use of a local that
    was never written, has no defined result in C and is [None] here.
    The logging macros of clog have no effect on the state and are left out. *)

From Stdlib Require Import ZArith Lia Bool.
From stdpp Require Import base option list.

Open Scope Z_scope.

(** ** Machine integers *)

Definition wrap (bits : Z) (x : Z) : Z := x mod 2 ^ bits.

(** [uint8_t], [uint32_t] and [size_t] (LP64) values of a mathematical integer. *)
Definition uint8 (x : Z) : Z := wrap 8 x.
Definition uint32 (x : Z) : Z := wrap 32 x.
Definition size_t (x : Z) : Z := wrap 64 x.

(** Conversion to [int] (32 bits, two's complement). *)
Definition int (x : Z) : Z :=
  let r := wrap 32 x in
  if r <? 2 ^ 31 then r else r - 2 ^ 32.

(** [StepId] is [uint32_t]; its subtraction is the modular one. *)
Definition StepId := Z.

Definition stepIdSub (a b : StepId) : Z := uint32 (a - b).

(** ** Data model *)

(** Modelled from the spec: the step ring [NbsSteps] of the nimble-steps
    collaborator is not part of the sources; the spec gives it the three
    counters below, with [stepsCount = expectedWriteId - expectedReadId]. *)
Record NbsSteps := mkNbsSteps {
  expectedReadId : StepId;
  expectedWriteId : StepId;
  stepsCount : Z
}.

Record NimbleServerGameState := mkGameState {
  stepId : StepId;
  state : list Z
}.

Record NimbleServerGame := mkGame {
  authoritativeSteps : NbsSteps;
  latestState : NimbleServerGameState;
  debugIsFrozen : bool;
  gameParticipants : list Z
}.

Record FldInStream := mkInStream {
  inOctets : list Z;
  inSize : Z;
  inPos : Z
}.

Record FldOutStream := mkOutStream {
  outOctets : list Z;
  outSize : Z;
  outPos : Z
}.

Record OrderedDatagramInLogic := mkInLogic {
  lastReceivedSequence : Z;
  hasReceivedInitialDatagram : bool
}.

Record OrderedDatagramOutLogic := mkOutLogic {
  sequenceToSend : Z
}.

Inductive NbTransportConnectionPhase :=
| NbTransportConnectionPhaseIdle
| NbTransportConnectionPhaseInitialStateDetermined
| NbTransportConnectionPhaseWaitingForReconnect.

(** The statistics collaborators keep their own state; it is opaque here. *)
Definition StatsInt := list Z.
Definition StatsIntPerSecond := list Z.

(** [NimbleServerTransportConnection], with the fields the sources read or
    write.  [assignedParticipantConnection] is a pointer into the pool of
    participant connections: [None] is the null pointer, [Some k] points at
    entry [k]. *)
Record NimbleServerTransportConnection := mkTransportConnection {
  orderedDatagramOutLogic : OrderedDatagramOutLogic;
  orderedDatagramInLogic : OrderedDatagramInLogic;
  nextBlobStreamOutChannel : Z;
  blobStreamOutAllocator : Z;
  tcLog : Z;
  debugCounter : Z;
  tcIsUsed : bool;
  noRangesToSendCounter : Z;
  nextAuthoritativeStepIdToSend : StepId;
  phase : NbTransportConnectionPhase;
  blobStreamOutClientRequestId : Z;
  stepsBehindStats : StatsInt;
  assignedParticipantConnection : option nat;
  tcTransportConnectionId : Z
}.

(** [NimbleServerParticipantConnection] of participant_connection.h.  The
    participant references are pointers; they are kept as participant ids. *)
Record NimbleServerParticipantConnection := mkParticipantConnection {
  id : Z;
  pcIsUsed : bool;
  steps : NbsSteps;
  participantReferences : list Z;
  incomingStepCountInBufferStats : StatsInt;
  pcTransportConnectionId : Z;
  allocatorWithNoFree : Z;
  forcedStepInRowCounter : Z;
  pcLog : Z
}.

Record NimbleServerParticipantConnections := mkParticipantConnections {
  connections : list NimbleServerParticipantConnection;
  capacityCount : Z;
  connectionCount : Z
}.

Record NimbleServerSetup := mkSetup {
  setupApplicationVersion : Z;
  setupMemory : Z;
  setupBlobAllocator : Z;
  maxConnectionCount : Z;
  maxParticipantCount : Z;
  maxParticipantCountForEachConnection : Z;
  maxSingleParticipantStepOctetCount : Z;
  maxGameStateOctetCount : Z;
  setupMultiTransport : Z;
  setupNow : Z;
  setupLog : Z
}.

Record NimbleServer := mkServer {
  log : Z;
  multiTransport : Z;
  serverConnections : NimbleServerParticipantConnections;
  pageAllocator : Z;
  blobAllocator : Z;
  applicationVersion : Z;
  setup : NimbleServerSetup;
  transportConnections : list NimbleServerTransportConnection;
  game : NimbleServerGame;
  authoritativeStepsPerSecondStat : StatsIntPerSecond;
  statsCounter : Z
}.

(** ** req_step.c *)

(** Everything a GameStep request can reach: the game, the transport
    connection of the sender, the pool its [assignedParticipantConnection]
    points into, the statistics and the two streams. *)
Record StepRequest := mkStepRequest {
  foundGame : NimbleServerGame;
  reqTransportConnection : NimbleServerTransportConnection;
  reqConnections : NimbleServerParticipantConnections;
  reqStat : StatsIntPerSecond;
  reqInStream : FldInStream;
  reqOutStream : FldOutStream
}.

Definition withGame (g : NimbleServerGame) (r : StepRequest) : StepRequest :=
  {| foundGame := g;
     reqTransportConnection := reqTransportConnection r;
     reqConnections := reqConnections r;
     reqStat := reqStat r;
     reqInStream := reqInStream r;
     reqOutStream := reqOutStream r |}.

Definition withStat (st : StatsIntPerSecond) (r : StepRequest) : StepRequest :=
  {| foundGame := foundGame r;
     reqTransportConnection := reqTransportConnection r;
     reqConnections := reqConnections r;
     reqStat := st;
     reqInStream := reqInStream r;
     reqOutStream := reqOutStream r |}.

Definition withAuthoritativeSteps (a : NbsSteps) (g : NimbleServerGame) : NimbleServerGame :=
  {| authoritativeSteps := a;
     latestState := latestState g;
     debugIsFrozen := debugIsFrozen g;
     gameParticipants := gameParticipants g |}.

(** What req_step.c calls and the sources do not hold: the window constant
    and error code of nimble-steps, the ingest and compose passes, the
    statistics and the step-range sender. *)
Class StepCollaborators := {
  NBS_WINDOW_SIZE : Z;
  nbsStepsDiscardFailed : Z;
  nimbleServerHandleIncomingSteps : StepRequest -> Z * StepId * StepRequest;
  nimbleServerComposeAuthoritativeSteps : NimbleServerGame -> Z * NimbleServerGame;
  statsIntPerSecondAdd : StatsIntPerSecond -> Z -> StatsIntPerSecond;
  nimbleServerTransportConnectionUpdateStats : StepRequest -> StepId -> StepRequest;
  nimbleServerSendStepRanges : StepRequest -> StepId -> Z * StepRequest
}.

Section RequestStep.
Context {collaborators : StepCollaborators}.

(** Modelled from the spec: [nbsStepsDiscardCount] of nimble-steps is not part
    of the sources; the spec says of it "advances expectedReadId by n; fails
    if n > stepsCount". *)
Definition nbsStepsDiscardCount (self : NbsSteps) (stepCountToDiscard : Z) : Z * NbsSteps :=
  if stepsCount self <? stepCountToDiscard then (nbsStepsDiscardFailed, self)
  else (0, {| expectedReadId := uint32 (expectedReadId self + stepCountToDiscard);
              expectedWriteId := expectedWriteId self;
              stepsCount := stepsCount self - stepCountToDiscard |}).

Definition discardAuthoritativeStepsIfBufferGettingFull (foundGame : NimbleServerGame)
  : Z * NimbleServerGame :=
  let authoritativeStepCount := stepsCount (authoritativeSteps foundGame) in
  let maxCapacity := size_t (Z.quot NBS_WINDOW_SIZE 3) in
  if authoritativeStepCount >? maxCapacity then
    let authoritativeToDrop := size_t (authoritativeStepCount - maxCapacity) in
    let '(err, steps') := nbsStepsDiscardCount (authoritativeSteps foundGame) authoritativeToDrop in
    if err <? 0 then (err, withAuthoritativeSteps steps' foundGame)
    else (0, withAuthoritativeSteps steps' foundGame)
  else (0, foundGame).

(** Lines 46 to 62 of [readIncomingStepsAndCreateAuthoritativeSteps]: the
    ingest of the predicted steps and the compose pass, on the request as the
    discard left it. *)
Definition ingestAndCompose (r : StepRequest) : Z * StepId * StepRequest :=
  let '(receivedCount, outClientWaitingForStepId, r1) := nimbleServerHandleIncomingSteps r in
  if receivedCount <? 0 then (receivedCount, outClientWaitingForStepId, r1)
  else
    if negb (debugIsFrozen (foundGame r1)) then
      let '(advanceCount, g2) := nimbleServerComposeAuthoritativeSteps (foundGame r1) in
      if advanceCount <? 0 then (advanceCount, outClientWaitingForStepId, withGame g2 r1)
      else (advanceCount, outClientWaitingForStepId,
            withStat (statsIntPerSecondAdd (reqStat r1) advanceCount) (withGame g2 r1))
    else (0, outClientWaitingForStepId, r1).

Definition readIncomingStepsAndCreateAuthoritativeSteps (r : StepRequest)
  : Z * option StepId * StepRequest :=
  let '(discardErr, g1) := discardAuthoritativeStepsIfBufferGettingFull (foundGame r) in
  if discardErr <? 0 then (discardErr, None, withGame g1 r)
  else
    let '(res, waiting, r') := ingestAndCompose (withGame g1 r) in
    (res, Some waiting, r').

(** Lines 82 to 91 of [nimbleServerReqGameStep], on what the read returned.
    [clientWaitingForStepId] is a local that only the ingest writes; it is
    read only after a non-negative result. *)
Definition answerGameStep (read : Z * option StepId * StepRequest) : option (Z * StepRequest) :=
  let '(errorCode, clientWaitingForStepId, r1) := read in
  if errorCode <? 0 then Some (errorCode, r1)
  else
    waiting ← clientWaitingForStepId;
    let r2 := nimbleServerTransportConnectionUpdateStats r1 waiting in
    let '(sent, r3) := nimbleServerSendStepRanges r2 waiting in
    Some (int sent, r3).

Definition nimbleServerReqGameStep (r : StepRequest) : option (Z * StepRequest) :=
  answerGameStep (readIncomingStepsAndCreateAuthoritativeSteps r).

End RequestStep.

(** ** transport_connection.c and server.c *)

(** Modelled from the spec: the constant [NBD_SERVER_MAX_TRANSPORT_CONNECTIONS]
    of server.h is not part of the sources; the spec gives
    "MaxTransportConnections <= 64 (hard)", and the server holds an array of
    that many transport connections. *)
Definition NBD_SERVER_MAX_TRANSPORT_CONNECTIONS : Z := 64.

Definition UDP_MAX_SIZE : Z := 1200.

Definition NBD_REASONABLE_NUMBER_OF_STEPS_TO_CATCHUP_FOR_JOINERS : Z := 80.

(** *** Field updates *)

Definition withInLogic (l : OrderedDatagramInLogic) (tc : NimbleServerTransportConnection)
  : NimbleServerTransportConnection :=
  {| orderedDatagramOutLogic := orderedDatagramOutLogic tc;
     orderedDatagramInLogic := l;
     nextBlobStreamOutChannel := nextBlobStreamOutChannel tc;
     blobStreamOutAllocator := blobStreamOutAllocator tc;
     tcLog := tcLog tc;
     debugCounter := debugCounter tc;
     tcIsUsed := tcIsUsed tc;
     noRangesToSendCounter := noRangesToSendCounter tc;
     nextAuthoritativeStepIdToSend := nextAuthoritativeStepIdToSend tc;
     phase := phase tc;
     blobStreamOutClientRequestId := blobStreamOutClientRequestId tc;
     stepsBehindStats := stepsBehindStats tc;
     assignedParticipantConnection := assignedParticipantConnection tc;
     tcTransportConnectionId := tcTransportConnectionId tc |}.

Definition withOutLogic (l : OrderedDatagramOutLogic) (tc : NimbleServerTransportConnection)
  : NimbleServerTransportConnection :=
  {| orderedDatagramOutLogic := l;
     orderedDatagramInLogic := orderedDatagramInLogic tc;
     nextBlobStreamOutChannel := nextBlobStreamOutChannel tc;
     blobStreamOutAllocator := blobStreamOutAllocator tc;
     tcLog := tcLog tc;
     debugCounter := debugCounter tc;
     tcIsUsed := tcIsUsed tc;
     noRangesToSendCounter := noRangesToSendCounter tc;
     nextAuthoritativeStepIdToSend := nextAuthoritativeStepIdToSend tc;
     phase := phase tc;
     blobStreamOutClientRequestId := blobStreamOutClientRequestId tc;
     stepsBehindStats := stepsBehindStats tc;
     assignedParticipantConnection := assignedParticipantConnection tc;
     tcTransportConnectionId := tcTransportConnectionId tc |}.

Definition withTcIsUsed (b : bool) (tc : NimbleServerTransportConnection)
  : NimbleServerTransportConnection :=
  {| orderedDatagramOutLogic := orderedDatagramOutLogic tc;
     orderedDatagramInLogic := orderedDatagramInLogic tc;
     nextBlobStreamOutChannel := nextBlobStreamOutChannel tc;
     blobStreamOutAllocator := blobStreamOutAllocator tc;
     tcLog := tcLog tc;
     debugCounter := debugCounter tc;
     tcIsUsed := b;
     noRangesToSendCounter := noRangesToSendCounter tc;
     nextAuthoritativeStepIdToSend := nextAuthoritativeStepIdToSend tc;
     phase := phase tc;
     blobStreamOutClientRequestId := blobStreamOutClientRequestId tc;
     stepsBehindStats := stepsBehindStats tc;
     assignedParticipantConnection := assignedParticipantConnection tc;
     tcTransportConnectionId := tcTransportConnectionId tc |}.

Definition withHasReceivedInitialDatagram (b : bool) (l : OrderedDatagramInLogic)
  : OrderedDatagramInLogic :=
  {| lastReceivedSequence := lastReceivedSequence l;
     hasReceivedInitialDatagram := b |}.

Definition withTransportConnections (tcs : list NimbleServerTransportConnection)
  (self : NimbleServer) : NimbleServer :=
  {| log := log self;
     multiTransport := multiTransport self;
     serverConnections := serverConnections self;
     pageAllocator := pageAllocator self;
     blobAllocator := blobAllocator self;
     applicationVersion := applicationVersion self;
     setup := setup self;
     transportConnections := tcs;
     game := game self;
     authoritativeStepsPerSecondStat := authoritativeStepsPerSecondStat self;
     statsCounter := statsCounter self |}.

Definition withServerConnections (c : NimbleServerParticipantConnections)
  (self : NimbleServer) : NimbleServer :=
  {| log := log self;
     multiTransport := multiTransport self;
     serverConnections := c;
     pageAllocator := pageAllocator self;
     blobAllocator := blobAllocator self;
     applicationVersion := applicationVersion self;
     setup := setup self;
     transportConnections := transportConnections self;
     game := game self;
     authoritativeStepsPerSecondStat := authoritativeStepsPerSecondStat self;
     statsCounter := statsCounter self |}.

Definition withConnections (l : list NimbleServerParticipantConnection)
  (c : NimbleServerParticipantConnections) : NimbleServerParticipantConnections :=
  {| connections := l;
     capacityCount := capacityCount c;
     connectionCount := connectionCount c |}.

(** [array[i]] for a signed or unsigned index: defined inside the array only. *)
Definition arrayAt {A : Type} (l : list A) (i : Z) : option A :=
  if i <? 0 then None else l !! Z.to_nat i.

(** [&self->transportConnections[connectionIndex]] written through. *)
Definition storeTransportConnection (connectionIndex : Z)
  (tc : NimbleServerTransportConnection) (self : NimbleServer) : NimbleServer :=
  withTransportConnections (<[Z.to_nat connectionIndex := tc]> (transportConnections self)) self.

(** *** Collaborators of server.c

    Each request handler is given the server and the index of the transport
    connection it is called on: through its pointer arguments it reaches no
    more than that.  A handler answers with its result code, the server and
    the two streams as it leaves them. *)
Definition Handler : Type :=
  NimbleServer -> Z -> FldInStream -> FldOutStream -> Z * NimbleServer * FldInStream * FldOutStream.

(** [transportOut->send]: the result code of sending one datagram. *)
Definition Send : Type := list Z -> Z.

Class ServerCollaborators := {
  NimbleSerializeCmdGameStep : Z;
  NimbleSerializeCmdJoinGameRequest : Z;
  NimbleSerializeCmdDownloadGameStateRequest : Z;
  NimbleSerializeCmdDownloadGameStateStatus : Z;
  (** flood: the octet read, if the stream had one left, and the stream after *)
  fldInStreamReadUInt8 : FldInStream -> option Z * FldInStream;
  orderedDatagramInLogicInit : OrderedDatagramInLogic -> OrderedDatagramInLogic;
  orderedDatagramInLogicReceive :
    OrderedDatagramInLogic -> FldInStream -> Z * OrderedDatagramInLogic * FldInStream;
  orderedDatagramOutLogicInit : OrderedDatagramOutLogic -> OrderedDatagramOutLogic;
  orderedDatagramOutLogicPrepare :
    OrderedDatagramOutLogic -> FldOutStream -> Z * OrderedDatagramOutLogic * FldOutStream;
  orderedDatagramOutLogicCommit : OrderedDatagramOutLogic -> OrderedDatagramOutLogic;
  statsIntInit : StatsInt -> Z -> StatsInt;
  statsIntPerSecondInit : StatsIntPerSecond -> Z -> Z -> StatsIntPerSecond;
  statsIntPerSecondUpdate : StatsIntPerSecond -> Z -> StatsIntPerSecond;
  (** width in bits of the [statsCounter] field, declared in server.h *)
  statsCounterWidth : Z;
  nbdParticipantConnectionsInit :
    NimbleServerParticipantConnections -> NimbleServerSetup -> NimbleServerParticipantConnections;
  (** the pool entry found for a connection index, [None] for the null pointer *)
  nbdParticipantConnectionsFindConnection :
    NimbleServerParticipantConnections -> Z -> option nat;
  nbdReqGameStep : Handler;
  nbdReqGameJoin : Handler;
  nbdReqDownloadGameState : Handler;
  (** the status handler sends its datagrams itself: it answers with them *)
  nbdReqDownloadGameStateAck :
    NimbleServer -> Z -> FldInStream -> Send -> Z * NimbleServer * list (list Z);
  (** [multiTransport.sendTo]: transport, connection index, datagram *)
  multiTransportSendTo : Z -> Z -> list Z -> Z
}.

(** One result of [multiTransport.receiveFrom]. *)
Record Received := mkReceived {
  octetCountReceived : Z;
  connectionId : Z;
  datagram : list Z
}.

Section Server.
Context {collaborators : ServerCollaborators}.

(** flood's stream constructors.  The out stream is kept as the octets
    written so far; the static reply buffer behind it is only ever read up
    to [outPos]. *)
Definition fldInStreamInit (data : list Z) (len : Z) : FldInStream :=
  {| inOctets := data; inSize := len; inPos := 0 |}.

Definition fldOutStreamInit (size : Z) : FldOutStream :=
  {| outOctets := []; outSize := size; outPos := 0 |}.

(** transport_connection.c.  [self->log = self->log] is a self assignment;
    the later [self->log = log] is the one that counts. *)
Definition transportConnectionInit (self : NimbleServerTransportConnection)
  (blobStreamAllocator : Z) (log : Z) : NimbleServerTransportConnection :=
  {| orderedDatagramOutLogic := orderedDatagramOutLogicInit (orderedDatagramOutLogic self);
     orderedDatagramInLogic := orderedDatagramInLogicInit (orderedDatagramInLogic self);
     nextBlobStreamOutChannel := 127;
     blobStreamOutAllocator := blobStreamAllocator;
     tcLog := log;
     debugCounter := 0;
     tcIsUsed := true;
     noRangesToSendCounter := 0;
     nextAuthoritativeStepIdToSend := 0xFFFFFFFF;
     phase := NbTransportConnectionPhaseIdle;
     blobStreamOutClientRequestId := 0;
     stepsBehindStats := statsIntInit (stepsBehindStats self) 60;
     assignedParticipantConnection := assignedParticipantConnection self;
     tcTransportConnectionId := tcTransportConnectionId self |}.

Definition transportConnectionSetGameStateTickId (self : NimbleServerTransportConnection)
  (lastAuthoritativeStateTickId : StepId) : NimbleServerTransportConnection :=
  {| orderedDatagramOutLogic := orderedDatagramOutLogic self;
     orderedDatagramInLogic := orderedDatagramInLogic self;
     nextBlobStreamOutChannel := nextBlobStreamOutChannel self;
     blobStreamOutAllocator := blobStreamOutAllocator self;
     tcLog := tcLog self;
     debugCounter := debugCounter self;
     tcIsUsed := tcIsUsed self;
     noRangesToSendCounter := noRangesToSendCounter self;
     nextAuthoritativeStepIdToSend := lastAuthoritativeStateTickId;
     phase := NbTransportConnectionPhaseInitialStateDetermined;
     blobStreamOutClientRequestId := blobStreamOutClientRequestId self;
     stepsBehindStats := stepsBehindStats self;
     assignedParticipantConnection := assignedParticipantConnection self;
     tcTransportConnectionId := tcTransportConnectionId self |}.

(** The body of the loop that closes [nimbleServerInit]. *)
Definition resetSlot (i : Z) (tc : NimbleServerTransportConnection)
  : NimbleServerTransportConnection :=
  {| orderedDatagramOutLogic := orderedDatagramOutLogic tc;
     orderedDatagramInLogic := orderedDatagramInLogic tc;
     nextBlobStreamOutChannel := nextBlobStreamOutChannel tc;
     blobStreamOutAllocator := blobStreamOutAllocator tc;
     tcLog := tcLog tc;
     debugCounter := debugCounter tc;
     tcIsUsed := false;
     noRangesToSendCounter := noRangesToSendCounter tc;
     nextAuthoritativeStepIdToSend := nextAuthoritativeStepIdToSend tc;
     phase := phase tc;
     blobStreamOutClientRequestId := blobStreamOutClientRequestId tc;
     stepsBehindStats := stepsBehindStats tc;
     assignedParticipantConnection := None;
     tcTransportConnectionId := i |}.

(** [for (i = first; i < first + count; ++i)] over the array of transport
    connections, which server.h declares with
    [NBD_SERVER_MAX_TRANSPORT_CONNECTIONS] entries. *)
Fixpoint resetSlots (count : nat) (first : nat) (tcs : list NimbleServerTransportConnection)
  : list NimbleServerTransportConnection :=
  match count with
  | O => tcs
  | S count' => resetSlots count' (S first) (alter (resetSlot (Z.of_nat first)) first tcs)
  end.

Definition nimbleServerInit (self : NimbleServer) (setup_ : NimbleServerSetup)
  : Z * NimbleServer :=
  let self1 :=
    {| log := setupLog setup_;
       multiTransport := setupMultiTransport setup_;
       serverConnections := serverConnections self;
       pageAllocator := pageAllocator self;
       blobAllocator := blobAllocator self;
       applicationVersion := applicationVersion self;
       setup := setup self;
       transportConnections := transportConnections self;
       game := game self;
       authoritativeStepsPerSecondStat := authoritativeStepsPerSecondStat self;
       statsCounter := statsCounter self |} in
  if maxConnectionCount setup_ >? NBD_SERVER_MAX_TRANSPORT_CONNECTIONS then (-1, self1)
  else
    let maximumSingleStepCountAllowed := 24 in
    if maxSingleParticipantStepOctetCount setup_ >? maximumSingleStepCountAllowed then (-1, self1)
    else
      let maximumNumberOfParticipantsAllowed := NBD_SERVER_MAX_TRANSPORT_CONNECTIONS in
      if maxParticipantCount setup_ >? maximumNumberOfParticipantsAllowed then (-1, self1)
      else
        (0,
         {| log := setupLog setup_;
            multiTransport := setupMultiTransport setup_;
            serverConnections := nbdParticipantConnectionsInit (serverConnections self) setup_;
            pageAllocator := setupMemory setup_;
            blobAllocator := setupBlobAllocator setup_;
            applicationVersion := setupApplicationVersion setup_;
            setup := setup_;
            transportConnections :=
              resetSlots (Z.to_nat NBD_SERVER_MAX_TRANSPORT_CONNECTIONS) 0 (transportConnections self);
            game := game self;
            authoritativeStepsPerSecondStat :=
              statsIntPerSecondInit (authoritativeStepsPerSecondStat self) (setupNow setup_) 1000;
            statsCounter := statsCounter self |}).

Definition nimbleServerConnectionConnected (self : NimbleServer) (connectionIndex : Z)
  : option (Z * NimbleServer) :=
  let connectionIndex := uint8 connectionIndex in
  transportConnection ← arrayAt (transportConnections self) connectionIndex;
  if tcIsUsed transportConnection then Some (-44, self)
  else
    let transportConnection := withTcIsUsed true transportConnection in
    let transportConnection :=
      transportConnectionInit transportConnection (blobAllocator self) (log self) in
    Some (0, storeTransportConnection connectionIndex transportConnection self).

Definition nimbleServerConnectionDisconnected (self : NimbleServer) (connectionIndex : Z)
  : option (Z * NimbleServer) :=
  let connectionIndex := uint8 connectionIndex in
  match nbdParticipantConnectionsFindConnection (serverConnections self) connectionIndex with
  | None => Some (-2, self)
  | Some k =>
      foundConnection ← connections (serverConnections self) !! k;
      if negb (pcIsUsed foundConnection) then Some (-4, self)
      else
        let foundConnection :=
          {| id := 0x100;
             pcIsUsed := false;
             steps := steps foundConnection;
             participantReferences := participantReferences foundConnection;
             incomingStepCountInBufferStats := incomingStepCountInBufferStats foundConnection;
             pcTransportConnectionId := pcTransportConnectionId foundConnection;
             allocatorWithNoFree := allocatorWithNoFree foundConnection;
             forcedStepInRowCounter := forcedStepInRowCounter foundConnection;
             pcLog := pcLog foundConnection |} in
        let self :=
          withServerConnections
            (withConnections (<[k := foundConnection]> (connections (serverConnections self)))
                             (serverConnections self)) self in
        transportConnection ← arrayAt (transportConnections self) connectionIndex;
        let transportConnection :=
          withInLogic (withHasReceivedInitialDatagram false (orderedDatagramInLogic transportConnection))
                      transportConnection in
        Some (0, storeTransportConnection connectionIndex transportConnection self)
  end.

(** [int] minus-and-compare of [nimbleServerMustProvideGameState]: the
    difference of two [StepId] is taken in [uint32_t] and stored in an [int];
    the comparison with the [size_t] constant converts that [int] to
    [size_t]. *)
Definition nimbleServerMustProvideGameState (self : NimbleServer) : bool :=
  let deltaTickCountSinceLastGameState :=
    int (stepIdSub (expectedWriteId (authoritativeSteps (game self)))
                   (stepId (latestState (game self)))) in
  size_t deltaTickCountSinceLastGameState >? NBD_REASONABLE_NUMBER_OF_STEPS_TO_CATCHUP_FOR_JOINERS.

(** The body of [nimbleServerReset] is a comment. *)
Definition nimbleServerReset (self : NimbleServer) : NimbleServer := self.

End Server.

Section Dispatcher.
Context {collaborators : ServerCollaborators}.

(** The [switch] of [nimbleServerFeed]: the handler of a command, [None] for
    the [default] label. *)
Definition handlerOf (cmd : Z) : option Handler :=
  if cmd =? NimbleSerializeCmdGameStep then Some nbdReqGameStep
  else if cmd =? NimbleSerializeCmdJoinGameRequest then Some nbdReqGameJoin
  else if cmd =? NimbleSerializeCmdDownloadGameStateRequest then Some nbdReqDownloadGameState
  else None.

(** The result code, the server afterwards, and the datagrams handed to
    [response->transportOut->send], oldest first.  The first test of the
    function, of the index against [connections.capacityCount], only logs;
    the results of [orderedDatagramInLogicReceive], of the read of [cmd] and
    of [orderedDatagramOutLogicPrepare] are not looked at. *)
Definition nimbleServerFeed (self : NimbleServer) (connectionIndex : Z) (data : list Z)
  (len : Z) (response : Send) : option (Z * NimbleServer * list (list Z)) :=
  let connectionIndex := uint8 connectionIndex in
  let inStream := fldInStreamInit data len in
  if connectionIndex >? 64 then Some (-13, self, [])
  else
    transportConnection ← arrayAt (transportConnections self) connectionIndex;
    let '(_, inLogic, inStream) :=
      orderedDatagramInLogicReceive (orderedDatagramInLogic transportConnection) inStream in
    let transportConnection := withInLogic inLogic transportConnection in
    let self := storeTransportConnection connectionIndex transportConnection self in
    let '(cmd, inStream) := fldInStreamReadUInt8 inStream in
    cmd ← cmd;
    if cmd =? NimbleSerializeCmdDownloadGameStateStatus then
      Some (nbdReqDownloadGameStateAck self connectionIndex inStream response)
    else
      let outStream := fldOutStreamInit UDP_MAX_SIZE in
      let '(_, outLogic, outStream) :=
        orderedDatagramOutLogicPrepare (orderedDatagramOutLogic transportConnection) outStream in
      let transportConnection := withOutLogic outLogic transportConnection in
      let self := storeTransportConnection connectionIndex transportConnection self in
      match handlerOf cmd with
      | None => Some (0, self, [])
      | Some handler =>
          let '(result, self, inStream, outStream) :=
            handler self connectionIndex inStream outStream in
          if result <? 0 then Some (result, self, [])
          else if outPos outStream <=? 2 then Some (0, self, [])
          else
            transportConnection ← arrayAt (transportConnections self) connectionIndex;
            let transportConnection :=
              withOutLogic (orderedDatagramOutLogicCommit (orderedDatagramOutLogic transportConnection))
                           transportConnection in
            let self := storeTransportConnection connectionIndex transportConnection self in
            let reply := take (Z.to_nat (outPos outStream)) (outOctets outStream) in
            Some (response reply, self, [reply])
      end.

(** The command byte of a datagram: what [nimbleServerFeed] reads into [cmd]
    once the ordered-datagram layer, in state [l], has taken its header. *)
Definition commandOf (l : OrderedDatagramInLogic) (data : list Z) (len : Z) : option Z :=
  let '(_, _, inStream) := orderedDatagramInLogicReceive l (fldInStreamInit data len) in
  fst (fldInStreamReadUInt8 inStream).

(** GameStep, JoinGameRequest, DownloadGameStateRequest or
    DownloadGameStateStatus. *)
Definition isRequest (cmd : Z) : bool :=
  (cmd =? NimbleSerializeCmdGameStep) ||
  (cmd =? NimbleSerializeCmdJoinGameRequest) ||
  (cmd =? NimbleSerializeCmdDownloadGameStateRequest) ||
  (cmd =? NimbleSerializeCmdDownloadGameStateStatus).

(** "Every fed datagram whose command byte is none of the four requests is
    answered with 0 and gets no reply": the sentence as it stands, for any
    connection index that a [uint8_t] holds. *)
Definition UnknownCommandIsDropped : Prop :=
  forall self connectionIndex data len response cmd,
    0 <= connectionIndex < 256 ->
    (forall l, commandOf l data len = Some cmd) ->
    isRequest cmd = false ->
    exists self', nimbleServerFeed self connectionIndex data len response = Some (0, self', []).

(** The datagrams of one reply, with the connection they were sent to. *)
Definition sentTo (connectionIndex : Z) (sent : list (list Z)) : list (Z * list Z) :=
  (fun d => (connectionIndex, d)) <$> sent.

Definition sendOnlyToSpecifiedTransport (multiTransport : Z) (connectionIndex : Z) : Send :=
  fun data => multiTransportSendTo multiTransport connectionIndex data.

(** One turn of the loop of [nimbleServerReadFromMultiTransport], for a
    datagram that [receiveFrom] delivered (lines 308 to 325): the result of
    the feed, the server, and the datagrams sent with their connection. *)
Definition datagramReceived (self : NimbleServer) (multiTransport : Z) (r : Received)
  : option (Z * NimbleServer * list (Z * list Z)) :=
  transportConnection ← arrayAt (transportConnections self) (connectionId r);
  let didConnectNow := negb (tcIsUsed transportConnection) in
  self ← (if didConnectNow
          then '(_, self) ← nimbleServerConnectionConnected self (connectionId r); Some self
          else Some self);
  '(errorCode, self, sent) ←
    nimbleServerFeed self (connectionId r) (datagram r) (octetCountReceived r)
                     (sendOnlyToSpecifiedTransport multiTransport (connectionId r));
  Some (errorCode, self, sentTo (connectionId r) sent).

(** The loop itself.  The multitransport is the list of what its
    [receiveFrom] answers, call after call; an exhausted list answers 0. *)
Fixpoint receiveLoop (turns : nat) (self : NimbleServer) (multiTransport : Z)
  (incoming : list Received) : option (Z * NimbleServer * list (Z * list Z)) :=
  match turns with
  | O => Some (0, self, [])
  | S turns' =>
      match incoming with
      | [] => Some (0, self, [])
      | r :: incoming' =>
          if octetCountReceived r =? 0 then Some (0, self, [])
          else if octetCountReceived r <? 0 then Some (octetCountReceived r, self, [])
          else
            '(errorCode, self, sent) ← datagramReceived self multiTransport r;
            if errorCode <? 0 then Some (errorCode, self, sent)
            else
              '(result, self, sent') ← receiveLoop turns' self multiTransport incoming';
              Some (result, self, sent ++ sent')
      end
  end.

Definition nimbleServerReadFromMultiTransport (self : NimbleServer) (incoming : list Received)
  : option (Z * NimbleServer * list (Z * list Z)) :=
  receiveLoop 32 self (multiTransport self) incoming.

(** [statsIntPerSecondDebugOutput], every 3000th call, only prints. *)
Definition nimbleServerUpdate (self : NimbleServer) (now : Z) (incoming : list Received)
  : option (Z * NimbleServer * list (Z * list Z)) :=
  '(_, self, sent) ← nimbleServerReadFromMultiTransport self incoming;
  let self :=
    {| log := log self;
       multiTransport := multiTransport self;
       serverConnections := serverConnections self;
       pageAllocator := pageAllocator self;
       blobAllocator := blobAllocator self;
       applicationVersion := applicationVersion self;
       setup := setup self;
       transportConnections := transportConnections self;
       game := game self;
       authoritativeStepsPerSecondStat :=
         statsIntPerSecondUpdate (authoritativeStepsPerSecondStat self) now;
       statsCounter := wrap statsCounterWidth (statsCounter self + 1) |} in
  Some (0, self, sent).

End Dispatcher.

(** ** Sequences of calls *)

(** The calls a host makes on the server.  [CallDatagram] is a datagram
    that the multitransport delivered to the drain loop, which connects the
    slot itself if it is not in use and then feeds the datagram. *)
Inductive Call :=
| CallInit (setup_ : NimbleServerSetup)
| CallConnected (connectionIndex : Z)
| CallDisconnected (connectionIndex : Z)
| CallFeed (connectionIndex : Z) (data : list Z) (len : Z) (response : Send)
| CallDatagram (multiTransport : Z) (r : Received).

(** What the history of a slot says about it: a flag per connection index. *)
Definition SlotFlags : Type := Z -> bool.

Definition noSlot : SlotFlags := fun _ => false.

Definition setFlag (i : Z) (b : bool) (flags : SlotFlags) : SlotFlags :=
  fun j => if j =? i then b else flags j.

Section Calls.
Context {collaborators : ServerCollaborators}.

Definition perform (c : Call) (self : NimbleServer) : option (Z * NimbleServer) :=
  match c with
  | CallInit setup_ => Some (nimbleServerInit self setup_)
  | CallConnected connectionIndex => nimbleServerConnectionConnected self connectionIndex
  | CallDisconnected connectionIndex => nimbleServerConnectionDisconnected self connectionIndex
  | CallFeed connectionIndex data len response =>
      '(result, self, _) ← nimbleServerFeed self connectionIndex data len response;
      Some (result, self)
  | CallDatagram multiTransport r =>
      '(result, self, _) ← datagramReceived self multiTransport r;
      Some (result, self)
  end.

(** The slot on which a call had [nimbleServerConnectionConnected] accepted:
    the call itself answering 0, or the drain loop finding the slot of an
    arriving datagram not in use. *)
Definition acceptedSlot (c : Call) (self : NimbleServer) (result : Z) : option Z :=
  match c with
  | CallConnected connectionIndex =>
      if result =? 0 then Some (uint8 connectionIndex) else None
  | CallDatagram _ r =>
      match arrayAt (transportConnections self) (connectionId r) with
      | Some transportConnection =>
          if tcIsUsed transportConnection then None else Some (uint8 (connectionId r))
      | None => None
      end
  | _ => None
  end.

(** The slot that a call disconnected with success. *)
Definition disconnectedSlot (c : Call) (result : Z) : option Z :=
  match c with
  | CallDisconnected connectionIndex =>
      if result =? 0 then Some (uint8 connectionIndex) else None
  | _ => None
  end.

Definition initialised (c : Call) (result : Z) : bool :=
  match c with
  | CallInit _ => result =? 0
  | _ => false
  end.

(** "accepted connectionConnected and has not since been disconnected" *)
Definition connectedNotDisconnected (c : Call) (self : NimbleServer) (result : Z)
  (flags : SlotFlags) : SlotFlags :=
  match acceptedSlot c self result with
  | Some i => setFlag i true flags
  | None =>
      match disconnectedSlot c result with
      | Some i => setFlag i false flags
      | None => flags
      end
  end.

(** "accepted connectionConnected since the server was last initialised" *)
Definition connectedSinceInit (c : Call) (self : NimbleServer) (result : Z)
  (flags : SlotFlags) : SlotFlags :=
  if initialised c result then noSlot
  else
    match acceptedSlot c self result with
    | Some i => setFlag i true flags
    | None => flags
    end.

Fixpoint run (track : Call -> NimbleServer -> Z -> SlotFlags -> SlotFlags)
  (calls : list Call) (self : NimbleServer) (flags : SlotFlags)
  : option (NimbleServer * SlotFlags) :=
  match calls with
  | [] => Some (self, flags)
  | c :: calls' =>
      '(result, self') ← perform c self;
      run track calls' self' (track c self result flags)
  end.

(** The states of a server: a successful [nimbleServerInit] on memory that
    holds the array of transport connections, then any calls. *)
Definition reachable (track : Call -> NimbleServer -> Z -> SlotFlags -> SlotFlags)
  (self : NimbleServer) (flags : SlotFlags) : Prop :=
  exists memory setup_ self1 calls,
    length (transportConnections memory) = Z.to_nat NBD_SERVER_MAX_TRANSPORT_CONNECTIONS /\
    nimbleServerInit memory setup_ = (0, self1) /\
    run track calls self1 noSlot = Some (self, flags).

Definition usedFlags (self : NimbleServer) : list bool :=
  tcIsUsed <$> transportConnections self.

(** The flags of a history cover the slots in use. *)
Definition covers (used : list bool) (flags : SlotFlags) : Prop :=
  length used = Z.to_nat NBD_SERVER_MAX_TRANSPORT_CONNECTIONS /\
  forall i, arrayAt used i = Some true -> flags i = true.

(** "A slot in use accepted connectionConnected and has not since been
    disconnected": the sentence as it stands. *)
Definition UsedMeansConnectedNotDisconnected : Prop :=
  forall self flags i tc,
    reachable connectedNotDisconnected self flags ->
    arrayAt (transportConnections self) i = Some tc ->
    tcIsUsed tc = true ->
    flags i = true.

(** What the invariant asks of the request handlers, whose code the sources
    do not hold: they leave the [isUsed] flag of every slot as it is. *)
Definition keepsIsUsed (handler : Handler) : Prop :=
  forall self i inStream outStream result self' inStream' outStream',
    handler self i inStream outStream = (result, self', inStream', outStream') ->
    usedFlags self' = usedFlags self.

Definition HandlersKeepIsUsed : Prop :=
  keepsIsUsed nbdReqGameStep /\
  keepsIsUsed nbdReqGameJoin /\
  keepsIsUsed nbdReqDownloadGameState /\
  (forall self i inStream response result self' sent,
     nbdReqDownloadGameStateAck self i inStream response = (result, self', sent) ->
     usedFlags self' = usedFlags self).

End Calls.

(** ** A model of the collaborators

    The theorems below hold for every collaborator.  Their instances on
    concrete inputs, and the sequences of calls that reach a state, need the
    collaborators to be something: this is the least that the spec says of
    them. *)

Definition advance (n : Z) (s : FldInStream) : FldInStream :=
  {| inOctets := inOctets s; inSize := inSize s; inPos := inPos s + n |}.

Definition writeOctets (octets : list Z) (s : FldOutStream) : FldOutStream :=
  {| outOctets := outOctets s ++ octets;
     outSize := outSize s;
     outPos := outPos s + Z.of_nat (length octets) |}.

(** Modelled from the spec: [fldInStreamReadUInt8] of flood is not part of
    the sources; "read one command byte": the octet at the read position,
    which moves on by one, and nothing at the end of the stream. *)
Definition modelReadUInt8 (s : FldInStream) : option Z * FldInStream :=
  if (0 <=? inPos s) && (inPos s <? inSize s) then
    match inOctets s !! Z.to_nat (inPos s) with
    | Some octet => (Some octet, advance 1 s)
    | None => (None, s)
    end
  else (None, s).

(** Modelled from the spec: the ordered-datagram layer is not part of the
    sources; its header is the two octets that a reply of "<= 2 octets"
    consists of. *)
Definition modelInLogicReceive (l : OrderedDatagramInLogic) (s : FldInStream)
  : Z * OrderedDatagramInLogic * FldInStream :=
  (0, {| lastReceivedSequence := lastReceivedSequence l; hasReceivedInitialDatagram := true |},
   advance 2 s).

(** Modelled from the spec: [orderedDatagramOutLogicPrepare] writes that
    header of two octets in front of the reply. *)
Definition modelOutLogicPrepare (l : OrderedDatagramOutLogic) (s : FldOutStream)
  : Z * OrderedDatagramOutLogic * FldOutStream :=
  (0, l, writeOctets [uint8 (sequenceToSend l / 256); uint8 (sequenceToSend l)] s).

(** Modelled from the spec: [nbdParticipantConnectionsInit] is not part of the
    sources; "a fixed pool of ParticipantConnections", none of them created
    before the first JoinGame. *)
Definition modelParticipantConnectionsInit (c : NimbleServerParticipantConnections)
  (setup_ : NimbleServerSetup) : NimbleServerParticipantConnections :=
  {| connections := []; capacityCount := maxConnectionCount setup_; connectionCount := 0 |}.

Fixpoint findTransportConnectionId (connectionIndex : Z)
  (pool : list NimbleServerParticipantConnection) : option nat :=
  match pool with
  | [] => None
  | pc :: pool' =>
      if pcTransportConnectionId pc =? connectionIndex then Some O
      else S <$> findTransportConnectionId connectionIndex pool'
  end.

(** Modelled from the spec: [nbdParticipantConnectionsFindConnection] is not
    part of the sources; the participant connection of a transport slot is
    the one that carries its [transportConnectionId], freed or not. *)
Definition modelFindConnection (c : NimbleServerParticipantConnections) (connectionIndex : Z)
  : option nat :=
  findTransportConnectionId connectionIndex (connections c).

Definition withAssignedParticipantConnection (p : option nat)
  (tc : NimbleServerTransportConnection) : NimbleServerTransportConnection :=
  {| orderedDatagramOutLogic := orderedDatagramOutLogic tc;
     orderedDatagramInLogic := orderedDatagramInLogic tc;
     nextBlobStreamOutChannel := nextBlobStreamOutChannel tc;
     blobStreamOutAllocator := blobStreamOutAllocator tc;
     tcLog := tcLog tc;
     debugCounter := debugCounter tc;
     tcIsUsed := tcIsUsed tc;
     noRangesToSendCounter := noRangesToSendCounter tc;
     nextAuthoritativeStepIdToSend := nextAuthoritativeStepIdToSend tc;
     phase := phase tc;
     blobStreamOutClientRequestId := blobStreamOutClientRequestId tc;
     stepsBehindStats := stepsBehindStats tc;
     assignedParticipantConnection := p;
     tcTransportConnectionId := tcTransportConnectionId tc |}.

(** Modelled from the spec: [nbdReqGameJoin] (req_join_game.c) is not part of
    the sources; "JoinGameRequest: allocate participants + participant-
    connection, respond with assigned IDs", the participant connection being
    "created on first successful JoinGame from a transport slot" with its
    step ring at the authoritative write head, and "referenced from its
    TransportConnection via assignedParticipantConnection".  A full pool
    refuses the join. *)
Definition modelReqGameJoin (joinCommand : Z) : Handler :=
  fun self connectionIndex inStream outStream =>
    let pool := serverConnections self in
    let k := length (connections pool) in
    if capacityCount pool <=? Z.of_nat k then (-1, self, inStream, outStream)
    else
      match arrayAt (transportConnections self) connectionIndex with
      | None => (-1, self, inStream, outStream)
      | Some transportConnection =>
          let head := expectedWriteId (authoritativeSteps (game self)) in
          let created :=
            {| id := Z.of_nat k;
               pcIsUsed := true;
               steps := {| expectedReadId := head; expectedWriteId := head; stepsCount := 0 |};
               participantReferences := [Z.of_nat k + 1];
               incomingStepCountInBufferStats := [];
               pcTransportConnectionId := connectionIndex;
               allocatorWithNoFree := pageAllocator self;
               forcedStepInRowCounter := 0;
               pcLog := log self |} in
          let pool :=
            {| connections := connections pool ++ [created];
               capacityCount := capacityCount pool;
               connectionCount := connectionCount pool + 1 |} in
          let self := withServerConnections pool self in
          let self :=
            storeTransportConnection connectionIndex
              (withAssignedParticipantConnection (Some k) transportConnection) self in
          (0, self, inStream, writeOctets [joinCommand; 1; Z.of_nat k + 1] outStream)
      end.

(** The requests that the sequences below do not send get no reply. *)
Definition modelNoReply : Handler :=
  fun self connectionIndex inStream outStream => (0, self, inStream, outStream).

#[local] Instance modelCollaborators : ServerCollaborators := {|
  NimbleSerializeCmdGameStep := 2;
  NimbleSerializeCmdJoinGameRequest := 1;
  NimbleSerializeCmdDownloadGameStateRequest := 3;
  NimbleSerializeCmdDownloadGameStateStatus := 4;
  fldInStreamReadUInt8 := modelReadUInt8;
  orderedDatagramInLogicInit := fun _ =>
    {| lastReceivedSequence := 0; hasReceivedInitialDatagram := false |};
  orderedDatagramInLogicReceive := modelInLogicReceive;
  orderedDatagramOutLogicInit := fun _ => {| sequenceToSend := 0 |};
  orderedDatagramOutLogicPrepare := modelOutLogicPrepare;
  orderedDatagramOutLogicCommit := fun l => {| sequenceToSend := sequenceToSend l + 1 |};
  statsIntInit := fun _ _ => [];
  statsIntPerSecondInit := fun _ _ _ => [];
  statsIntPerSecondUpdate := fun s _ => s;
  statsCounterWidth := 16;
  nbdParticipantConnectionsInit := modelParticipantConnectionsInit;
  nbdParticipantConnectionsFindConnection := modelFindConnection;
  nbdReqGameStep := modelNoReply;
  nbdReqGameJoin := modelReqGameJoin 1;
  nbdReqDownloadGameState := modelNoReply;
  nbdReqDownloadGameStateAck := fun self _ _ _ => (0, self, []);
  multiTransportSendTo := fun _ _ data => Z.of_nat (length data)
|}.

(** The step collaborators of the spec's second scenario: a window of 90,
    an ingest and a compose pass that find nothing to do. *)
#[local] Instance modelStepCollaborators : StepCollaborators := {|
  NBS_WINDOW_SIZE := 90;
  nbsStepsDiscardFailed := -1;
  nimbleServerHandleIncomingSteps := fun r =>
    (0, expectedWriteId (authoritativeSteps (foundGame r)), r);
  nimbleServerComposeAuthoritativeSteps := fun g => (0, g);
  statsIntPerSecondAdd := fun s _ => s;
  nimbleServerTransportConnectionUpdateStats := fun r _ => r;
  nimbleServerSendStepRanges := fun r _ => (0, r)
|}.

(** *** Concrete states *)

Definition blankTransportConnection : NimbleServerTransportConnection :=
  {| orderedDatagramOutLogic := {| sequenceToSend := 0 |};
     orderedDatagramInLogic := {| lastReceivedSequence := 0; hasReceivedInitialDatagram := false |};
     nextBlobStreamOutChannel := 0;
     blobStreamOutAllocator := 0;
     tcLog := 0;
     debugCounter := 0;
     tcIsUsed := false;
     noRangesToSendCounter := 0;
     nextAuthoritativeStepIdToSend := 0;
     phase := NbTransportConnectionPhaseIdle;
     blobStreamOutClientRequestId := 0;
     stepsBehindStats := [];
     assignedParticipantConnection := None;
     tcTransportConnectionId := 0 |}.

Definition gameAt (readId writeId count snapshotStepId : Z) : NimbleServerGame :=
  {| authoritativeSteps :=
       {| expectedReadId := readId; expectedWriteId := writeId; stepsCount := count |};
     latestState := {| stepId := snapshotStepId; state := [0xAA] |};
     debugIsFrozen := false;
     gameParticipants := [] |}.

Definition sampleSetup (connectionCount' stepOctetCount participantCount : Z)
  : NimbleServerSetup :=
  {| setupApplicationVersion := 1;
     setupMemory := 1;
     setupBlobAllocator := 2;
     maxConnectionCount := connectionCount';
     maxParticipantCount := participantCount;
     maxParticipantCountForEachConnection := 1;
     maxSingleParticipantStepOctetCount := stepOctetCount;
     maxGameStateOctetCount := 65536;
     setupMultiTransport := 7;
     setupNow := 0;
     setupLog := 3 |}.

(** Memory before the first [nimbleServerInit]. *)
Definition memoryWith (g : NimbleServerGame) : NimbleServer :=
  {| log := 0;
     multiTransport := 0;
     serverConnections := {| connections := []; capacityCount := 0; connectionCount := 0 |};
     pageAllocator := 0;
     blobAllocator := 0;
     applicationVersion := 0;
     setup := sampleSetup 0 0 0;
     transportConnections :=
       replicate (Z.to_nat NBD_SERVER_MAX_TRANSPORT_CONNECTIONS) blankTransportConnection;
     game := g;
     authoritativeStepsPerSecondStat := [];
     statsCounter := 0 |}.

Definition memory : NimbleServer := memoryWith (gameAt 16 16 0 16).

(** The server of the spec's first scenario after its [nimbleServerInit]. *)
Definition freshServer : NimbleServer := snd (nimbleServerInit memory (sampleSetup 1 4 1)).

(** A JoinGame request as the multitransport delivers it on slot 0. *)
Definition joinDatagram : Received :=
  {| octetCountReceived := 3; connectionId := 0; datagram := [0; 0; 1] |}.

(** A client joins on slot 0 and the host then disconnects the slot. *)
Definition joinThenDisconnect : list Call :=
  [CallDatagram 7 joinDatagram; CallDisconnected 0].

(** The server after that join. *)
Definition joinedServer : NimbleServer :=
  from_option (fun '(_, self, _) => self) freshServer (datagramReceived freshServer 7 joinDatagram).

(** The server and the flags of a history after a sequence of calls on the
    fresh server; the fresh server itself where a call has no defined
    result. *)
Definition after (track : Call -> NimbleServer -> Z -> SlotFlags -> SlotFlags)
  (calls : list Call) : NimbleServer * SlotFlags :=
  default (freshServer, noSlot) (run track calls freshServer noSlot).

Definition stepRequestOn (g : NimbleServerGame) : StepRequest :=
  {| foundGame := g;
     reqTransportConnection := blankTransportConnection;
     reqConnections := {| connections := []; capacityCount := 1; connectionCount := 0 |};
     reqStat := [];
     reqInStream := {| inOctets := []; inSize := 0; inPos := 0 |};
     reqOutStream := {| outOctets := []; outSize := 1200; outPos := 0 |} |}.

(** ** server.c: a new game on the same server *)

(** What [nimbleServerReInitWithGame] and [nimbleServerSetGameState] call and
    the sources do not hold: the game and the pool of participant
    connections, and the restart of a step ring. *)
Class GameCollaborators := {
  (** game, allocator, and the three limits of the setup, then the log *)
  nbdGameInit : NimbleServerGame -> Z -> Z -> Z -> Z -> Z -> NimbleServerGame;
  (** game, step id, the octets of the state and their count *)
  nbdGameSetGameState : NimbleServerGame -> StepId -> list Z -> Z -> NimbleServerGame;
  nbsStepsReInit : NbsSteps -> StepId -> NbsSteps;
  nbdParticipantConnectionsReset :
    NimbleServerParticipantConnections -> NimbleServerParticipantConnections
}.

Section NewGame.
Context {collaborators : ServerCollaborators} {gameCollaborators : GameCollaborators}.

Definition withGameOf (g : NimbleServerGame) (self : NimbleServer) : NimbleServer :=
  {| log := log self;
     multiTransport := multiTransport self;
     serverConnections := serverConnections self;
     pageAllocator := pageAllocator self;
     blobAllocator := blobAllocator self;
     applicationVersion := applicationVersion self;
     setup := setup self;
     transportConnections := transportConnections self;
     game := g;
     authoritativeStepsPerSecondStat := authoritativeStepsPerSecondStat self;
     statsCounter := statsCounter self |}.

Definition nimbleServerReInitWithGame (self : NimbleServer) (gameState : list Z)
  (gameStateOctetCount : Z) (stepId_ : StepId) (now : Z) : Z * NimbleServer :=
  let game1 :=
    nbdGameInit (game self) (pageAllocator self)
                (maxSingleParticipantStepOctetCount (setup self))
                (maxGameStateOctetCount (setup self))
                (maxParticipantCount (setup self)) (log self) in
  let game2 := nbdGameSetGameState game1 stepId_ gameState gameStateOctetCount in
  let game3 :=
    withAuthoritativeSteps (nbsStepsReInit (authoritativeSteps game2) stepId_) game2 in
  (0,
   {| log := log self;
      multiTransport := multiTransport self;
      serverConnections := nbdParticipantConnectionsReset (serverConnections self);
      pageAllocator := pageAllocator self;
      blobAllocator := blobAllocator self;
      applicationVersion := applicationVersion self;
      setup := setup self;
      transportConnections := transportConnections self;
      game := game3;
      authoritativeStepsPerSecondStat :=
        statsIntPerSecondInit (authoritativeStepsPerSecondStat self) now 1000;
      statsCounter := 0 |}).

Definition nimbleServerSetGameState (self : NimbleServer) (gameState : list Z)
  (gameStateOctetCount : Z) (stepId_ : StepId) : NimbleServer :=
  withGameOf (nbdGameSetGameState (game self) stepId_ gameState gameStateOctetCount) self.

End NewGame.

(** Modelled from the spec: game.c, the pool of participant connections and
    nimble-steps are not part of the sources; "setGameState(stepId, bytes,
    len) replaces the stored snapshot", "reInit(startStepId)" restarts a ring
    at that step, and a reset pool has "no connections". *)
#[local] Instance modelGameCollaborators : GameCollaborators := {|
  nbdGameInit := fun g _ _ _ _ _ =>
    {| authoritativeSteps := authoritativeSteps g;
       latestState := {| stepId := 0; state := [] |};
       debugIsFrozen := false;
       gameParticipants := [] |};
  nbdGameSetGameState := fun g stepId_ gameState _ =>
    {| authoritativeSteps := authoritativeSteps g;
       latestState := {| stepId := stepId_; state := gameState |};
       debugIsFrozen := debugIsFrozen g;
       gameParticipants := gameParticipants g |};
  nbsStepsReInit := fun _ stepId_ =>
    {| expectedReadId := stepId_; expectedWriteId := stepId_; stepsCount := 0 |};
  nbdParticipantConnectionsReset := fun c =>
    {| connections := []; capacityCount := capacityCount c; connectionCount := 0 |}
|}.

(** A second JoinGame request on slot 0, for a pool that is full. *)
Definition joinAgain : list Z := [0; 0; 1].

(** An ingest that fails on every request, and a compose pass that fails. *)
Definition failingIngest : StepCollaborators := {|
  NBS_WINDOW_SIZE := 90;
  nbsStepsDiscardFailed := -1;
  nimbleServerHandleIncomingSteps := fun r => (-7, 0, r);
  nimbleServerComposeAuthoritativeSteps := fun g => (0, g);
  statsIntPerSecondAdd := fun s n => n :: s;
  nimbleServerTransportConnectionUpdateStats := fun r _ => r;
  nimbleServerSendStepRanges := fun r _ => (5, r)
|}.

Definition failingCompose : StepCollaborators := {|
  NBS_WINDOW_SIZE := 90;
  nbsStepsDiscardFailed := -1;
  nimbleServerHandleIncomingSteps := fun r =>
    (1, expectedWriteId (authoritativeSteps (foundGame r)), r);
  nimbleServerComposeAuthoritativeSteps := fun g => (-9, g);
  statsIntPerSecondAdd := fun s n => n :: s;
  nimbleServerTransportConnectionUpdateStats := fun r _ => r;
  nimbleServerSendStepRanges := fun r _ => (5, r)
|}.

Definition frozenGame : NimbleServerGame :=
  {| authoritativeSteps := {| expectedReadId := 16; expectedWriteId := 56; stepsCount := 40 |};
     latestState := {| stepId := 16; state := [0xAA] |};
     debugIsFrozen := true;
     gameParticipants := [] |}.

(** Slot 0 connected by the host on the blank memory, and the joined server
    after the host disconnected slot 0. *)
Definition connectedOnce : NimbleServer :=
  default memory (snd <$> nimbleServerConnectionConnected memory 0).

Definition disconnectedServer : NimbleServer :=
  default joinedServer (snd <$> nimbleServerConnectionDisconnected joinedServer 0).

(** * Properties *)

(** ** Machine integers *)

Lemma wrap_small bits x : 0 <= x < 2 ^ bits -> wrap bits x = x.
Proof. intros H. unfold wrap. apply Z.mod_small. exact H. Qed.

Lemma wrap_range bits x : 0 <= bits -> 0 <= wrap bits x < 2 ^ bits.
Proof. intros H. unfold wrap. apply Z.mod_pos_bound. apply Z.pow_pos_nonneg; lia. Qed.

Lemma uint8_small x : 0 <= x < 256 -> uint8 x = x.
Proof. intros H. apply wrap_small. change (2 ^ 8) with 256. exact H. Qed.

Lemma size_t_small x : 0 <= x < 2 ^ 64 -> size_t x = x.
Proof. apply wrap_small. Qed.

Lemma stepIdSub_range a b : 0 <= stepIdSub a b < 2 ^ 32.
Proof. apply wrap_range. lia. Qed.

(** Stored in an [int] and converted to [size_t] for the comparison, a
    [uint32_t] exceeds a bound below 2^31 exactly when it did before. *)
Lemma size_t_int_gt d bound :
  0 <= d < 2 ^ 32 -> 0 <= bound < 2 ^ 31 ->
  (size_t (int d) >? bound) = (d >? bound).
Proof.
  intros Hd Hb. unfold int. rewrite (wrap_small 32 d Hd).
  destruct (d <? 2 ^ 31) eqn:E.
  - apply Z.ltb_lt in E. rewrite size_t_small by lia. reflexivity.
  - apply Z.ltb_ge in E.
    assert (Hw : size_t (d - 2 ^ 32) = d - 2 ^ 32 + 2 ^ 64).
    { unfold size_t, wrap. symmetry. apply (Z.mod_unique _ _ (-1)); lia. }
    rewrite Hw.
    transitivity true; [apply Z.gtb_lt | symmetry; apply Z.gtb_lt]; lia.
Qed.

(** Where the snapshot is not ahead of the write head, the [StepId]
    difference is the difference of the integers. *)
Lemma stepIdSub_exact a b : 0 <= b <= a -> a < 2 ^ 32 -> stepIdSub a b = a - b.
Proof. intros H1 H2. apply wrap_small. lia. Qed.

(** ** req_step.c *)

Section RequestStepFacts.
Context {collaborators : StepCollaborators}.

Lemma nbsStepsDiscardCount_ok (self : NbsSteps) (n : Z) :
  n <= stepsCount self ->
  nbsStepsDiscardCount self n =
    (0, {| expectedReadId := uint32 (expectedReadId self + n);
           expectedWriteId := expectedWriteId self;
           stepsCount := stepsCount self - n |}).
Proof.
  intros H. unfold nbsStepsDiscardCount.
  destruct (stepsCount self <? n) eqn:E; [apply Z.ltb_lt in E; lia | reflexivity].
Qed.

(** C1.  A GameStep request starts with the trim of the authoritative
    ring, and its ingest runs on the game as the trim left it, with the rest
    of the request as it came.  With more than [NBS_WINDOW_SIZE / 3] steps
    stored, exactly the surplus [stepsCount - NBS_WINDOW_SIZE / 3] is handed
    to [nbsStepsDiscardCount]: [expectedReadId] moves on by it (as a
    [StepId]) and [NBS_WINDOW_SIZE / 3] steps remain.  With at most that many
    stored, the ring is left as it is.  In both cases the write head, the
    snapshot, the frozen flag and the participants of the game are not
    touched, and the trim itself never fails. *)
Theorem trim_before_ingest (r : StepRequest) :
  0 <= NBS_WINDOW_SIZE < 2 ^ 64 ->
  0 <= stepsCount (authoritativeSteps (foundGame r)) < 2 ^ 64 ->
  let ring := authoritativeSteps (foundGame r) in
  let third := Z.quot NBS_WINDOW_SIZE 3 in
  exists (trimmed : NimbleServerGame) (ingested : StepRequest),
    discardAuthoritativeStepsIfBufferGettingFull (foundGame r) = (0, trimmed) /\
    readIncomingStepsAndCreateAuthoritativeSteps r =
      (let '(result, waiting, r') := ingestAndCompose ingested in
       (result, Some waiting, r')) /\
    nimbleServerReqGameStep r =
      answerGameStep (let '(result, waiting, r') := ingestAndCompose ingested in
                      (result, Some waiting, r')) /\
    foundGame ingested = trimmed /\
    reqTransportConnection ingested = reqTransportConnection r /\
    reqConnections ingested = reqConnections r /\
    reqStat ingested = reqStat r /\
    reqInStream ingested = reqInStream r /\
    reqOutStream ingested = reqOutStream r /\
    expectedWriteId (authoritativeSteps trimmed) = expectedWriteId ring /\
    latestState trimmed = latestState (foundGame r) /\
    debugIsFrozen trimmed = debugIsFrozen (foundGame r) /\
    gameParticipants trimmed = gameParticipants (foundGame r) /\
    (stepsCount ring > third ->
     stepsCount (authoritativeSteps trimmed) = third /\
     expectedReadId (authoritativeSteps trimmed) =
       uint32 (expectedReadId ring + (stepsCount ring - third)) /\
     nbsStepsDiscardCount ring (stepsCount ring - third) = (0, authoritativeSteps trimmed)) /\
    (stepsCount ring <= third ->
     stepsCount (authoritativeSteps trimmed) = stepsCount ring /\
     expectedReadId (authoritativeSteps trimmed) = expectedReadId ring /\
     trimmed = foundGame r).
Proof.
  intros Hw Hc ring third.
  change (0 <= stepsCount ring < 2 ^ 64) in Hc.
  assert (Hthird : 0 <= third < 2 ^ 64).
  { subst third. split; [apply Z.quot_pos; lia |].
    apply Z.le_lt_trans with NBS_WINDOW_SIZE; [apply Z.quot_le_upper_bound; lia | lia]. }
  destruct (discardAuthoritativeStepsIfBufferGettingFull (foundGame r)) as [err trimmed]
    eqn:Hdiscard.
  assert (Hcases :
    err = 0 /\
    ((stepsCount ring > third /\
      nbsStepsDiscardCount ring (stepsCount ring - third) = (0, authoritativeSteps trimmed) /\
      latestState trimmed = latestState (foundGame r) /\
      debugIsFrozen trimmed = debugIsFrozen (foundGame r) /\
      gameParticipants trimmed = gameParticipants (foundGame r)) \/
     (stepsCount ring <= third /\ trimmed = foundGame r))).
  { unfold discardAuthoritativeStepsIfBufferGettingFull in Hdiscard.
    fold ring in Hdiscard. fold third in Hdiscard.
    rewrite (size_t_small third Hthird) in Hdiscard.
    destruct (stepsCount ring >? third) eqn:E.
    - apply Z.gtb_lt in E. rewrite size_t_small in Hdiscard by lia.
      pose proof (nbsStepsDiscardCount_ok ring (stepsCount ring - third) ltac:(lia)) as Hok.
      rewrite Hok in Hdiscard. change (0 <? 0) with false in Hdiscard. cbv iota in Hdiscard.
      pose proof (f_equal fst Hdiscard) as He. pose proof (f_equal snd Hdiscard) as Hg.
      cbn [fst snd] in He, Hg. subst err trimmed.
      split; [reflexivity |]. left. split; [lia |]. rewrite Hok.
      split; [reflexivity |]. repeat split.
    - rewrite Z.gtb_ltb in E. apply Z.ltb_ge in E.
      pose proof (f_equal fst Hdiscard) as He. pose proof (f_equal snd Hdiscard) as Hg.
      cbn [fst snd] in He, Hg. subst err trimmed.
      split; [reflexivity |]. right. split; [lia | reflexivity]. }
  destruct Hcases as [-> Hcases].
  assert (Hread :
    readIncomingStepsAndCreateAuthoritativeSteps r =
      (let '(result, waiting, r') := ingestAndCompose (withGame trimmed r) in
       (result, Some waiting, r'))).
  { unfold readIncomingStepsAndCreateAuthoritativeSteps. rewrite Hdiscard. reflexivity. }
  exists trimmed, (withGame trimmed r).
  split; [reflexivity |]. split; [exact Hread |].
  split; [unfold nimbleServerReqGameStep; rewrite Hread; reflexivity |].
  split; [reflexivity |]. split; [reflexivity |]. split; [reflexivity |].
  split; [reflexivity |]. split; [reflexivity |]. split; [reflexivity |].
  destruct Hcases as [(Hmore & Hcall & Hstate & Hfrozen & Hparticipants) | (Hless & ->)].
  - rewrite (nbsStepsDiscardCount_ok ring (stepsCount ring - third) ltac:(lia)) in Hcall.
    apply (f_equal snd) in Hcall. cbn [snd] in Hcall. rewrite <- Hcall.
    cbn [expectedWriteId stepsCount expectedReadId].
    split; [reflexivity |]. split; [exact Hstate |]. split; [exact Hfrozen |].
    split; [exact Hparticipants |]. split.
    + intros _. split; [lia |]. split; [reflexivity |].
      apply nbsStepsDiscardCount_ok. lia.
    + intros H. lia.
  - fold ring. split; [reflexivity |]. split; [reflexivity |]. split; [reflexivity |].
    split; [reflexivity |]. split.
    + intros H. lia.
    + intros _. repeat split.
Qed.

End RequestStepFacts.

(** The spec's second scenario: a window of 90 and 40 steps stored, from
    step 16 to the write head 56.  The trim drops 10 and leaves the 30 steps
    from 26. *)
Lemma trim_before_ingest_witness :
  exists (trimmed : NimbleServerGame) (ingested : StepRequest),
    discardAuthoritativeStepsIfBufferGettingFull (gameAt 16 56 40 16) = (0, trimmed) /\
    readIncomingStepsAndCreateAuthoritativeSteps (stepRequestOn (gameAt 16 56 40 16)) =
      (let '(result, waiting, r') := ingestAndCompose ingested in
       (result, Some waiting, r')) /\
    nimbleServerReqGameStep (stepRequestOn (gameAt 16 56 40 16)) =
      answerGameStep (let '(result, waiting, r') := ingestAndCompose ingested in
                      (result, Some waiting, r')) /\
    foundGame ingested = trimmed /\
    reqTransportConnection ingested = blankTransportConnection /\
    reqConnections ingested = reqConnections (stepRequestOn (gameAt 16 56 40 16)) /\
    reqStat ingested = [] /\
    reqInStream ingested = reqInStream (stepRequestOn (gameAt 16 56 40 16)) /\
    reqOutStream ingested = reqOutStream (stepRequestOn (gameAt 16 56 40 16)) /\
    expectedWriteId (authoritativeSteps trimmed) = 56 /\
    latestState trimmed = latestState (gameAt 16 56 40 16) /\
    debugIsFrozen trimmed = false /\
    gameParticipants trimmed = [] /\
    (40 > 30 ->
     stepsCount (authoritativeSteps trimmed) = 30 /\
     expectedReadId (authoritativeSteps trimmed) = 26 /\
     nbsStepsDiscardCount (authoritativeSteps (gameAt 16 56 40 16)) 10 =
       (0, authoritativeSteps trimmed)) /\
    (40 <= 30 ->
     stepsCount (authoritativeSteps trimmed) = 40 /\
     expectedReadId (authoritativeSteps trimmed) = 16 /\
     trimmed = gameAt 16 56 40 16).
Proof.
  apply (trim_before_ingest (collaborators := modelStepCollaborators)
           (stepRequestOn (gameAt 16 56 40 16))); simpl; lia.
Defined.

(** ** server.c: the snapshot request, the reset and the limits of init *)

(** C2.  [nimbleServerMustProvideGameState] answers true exactly when the
    write head of the authoritative ring is more than 80 steps past the step
    of the latest snapshot, the difference being the one of [StepId]; at a
    difference of 80 it answers false and at 81 true.  With the snapshot not
    ahead of the write head, that difference is the difference of the two
    numbers. *)
Theorem must_provide_game_state_iff (self : NimbleServer) :
  let head := expectedWriteId (authoritativeSteps (game self)) in
  let snapshot := stepId (latestState (game self)) in
  let difference := stepIdSub head snapshot in
  (nimbleServerMustProvideGameState self = true <-> difference > 80) /\
  (difference = 80 -> nimbleServerMustProvideGameState self = false) /\
  (difference = 81 -> nimbleServerMustProvideGameState self = true) /\
  (0 <= snapshot <= head -> head < 2 ^ 32 -> difference = head - snapshot).
Proof.
  intros head snapshot difference.
  assert (Hr : 0 <= difference < 2 ^ 32) by apply stepIdSub_range.
  assert (He : nimbleServerMustProvideGameState self = (difference >? 80)).
  { unfold nimbleServerMustProvideGameState. fold head. fold snapshot. fold difference.
    apply size_t_int_gt; [exact Hr |].
    unfold NBD_REASONABLE_NUMBER_OF_STEPS_TO_CATCHUP_FOR_JOINERS. lia. }
  rewrite He. repeat split.
  - intros H. apply Z.gtb_lt in H. lia.
  - intros H. apply Z.gtb_lt. lia.
  - intros H. rewrite H. reflexivity.
  - intros H. rewrite H. reflexivity.
  - intros H1 H2. apply stepIdSub_exact; assumption.
Qed.

(** The spec's fourth scenario: a snapshot at step 16, then 80 and 81
    authoritative steps. *)
Lemma must_provide_game_state_witness :
  nimbleServerMustProvideGameState (memoryWith (gameAt 16 96 80 16)) = false /\
  nimbleServerMustProvideGameState (memoryWith (gameAt 16 97 81 16)) = true.
Proof.
  split.
  - apply (must_provide_game_state_iff (memoryWith (gameAt 16 96 80 16))). reflexivity.
  - apply (must_provide_game_state_iff (memoryWith (gameAt 16 97 81 16))). reflexivity.
Defined.

(** C10.  [nimbleServerReset] leaves the server as it is: every transport
    connection, every participant connection, the game and the statistics. *)
Theorem reset_changes_nothing (self : NimbleServer) :
  nimbleServerReset self = self /\
  transportConnections (nimbleServerReset self) = transportConnections self /\
  serverConnections (nimbleServerReset self) = serverConnections self /\
  game (nimbleServerReset self) = game self /\
  authoritativeStepsPerSecondStat (nimbleServerReset self) = authoritativeStepsPerSecondStat self /\
  statsCounter (nimbleServerReset self) = statsCounter self.
Proof. unfold nimbleServerReset. repeat split. Qed.

Section ServerFacts.
Context {collaborators : ServerCollaborators}.

(** C9.  [nimbleServerInit] answers a negative code, with the pool of
    participant connections and the transport connections as they were, when
    a single step may exceed 24 octets or more than 64 connections or 64
    participants are asked for; within these limits it answers 0. *)
Theorem init_checks_limits (self : NimbleServer) (setup_ : NimbleServerSetup) :
  (maxSingleParticipantStepOctetCount setup_ > 24 \/
   maxConnectionCount setup_ > 64 \/
   maxParticipantCount setup_ > 64 ->
   fst (nimbleServerInit self setup_) < 0 /\
   serverConnections (snd (nimbleServerInit self setup_)) = serverConnections self /\
   transportConnections (snd (nimbleServerInit self setup_)) = transportConnections self) /\
  (maxSingleParticipantStepOctetCount setup_ <= 24 /\
   maxConnectionCount setup_ <= 64 /\
   maxParticipantCount setup_ <= 64 ->
   fst (nimbleServerInit self setup_) = 0 /\
   serverConnections (snd (nimbleServerInit self setup_)) =
     nbdParticipantConnectionsInit (serverConnections self) setup_).
Proof.
  unfold nimbleServerInit, NBD_SERVER_MAX_TRANSPORT_CONNECTIONS.
  destruct (maxConnectionCount setup_ >? 64) eqn:E1;
    destruct (maxSingleParticipantStepOctetCount setup_ >? 24) eqn:E2;
    destruct (maxParticipantCount setup_ >? 64) eqn:E3;
    rewrite ?Z.gtb_ltb in E1, E2, E3;
    rewrite ?Z.ltb_lt, ?Z.ltb_ge in E1, E2, E3;
    (split; [intros H | intros (H1 & H2 & H3)]);
    cbn [fst snd serverConnections transportConnections];
    try lia; repeat split; lia.
Qed.

End ServerFacts.

Lemma init_checks_limits_witness :
  (fst (nimbleServerInit memory (sampleSetup 1 25 1)) < 0 /\
   serverConnections (snd (nimbleServerInit memory (sampleSetup 1 25 1))) = serverConnections memory /\
   transportConnections (snd (nimbleServerInit memory (sampleSetup 1 25 1))) =
     transportConnections memory) /\
  (fst (nimbleServerInit memory (sampleSetup 64 24 64)) = 0 /\
   serverConnections (snd (nimbleServerInit memory (sampleSetup 64 24 64))) =
     nbdParticipantConnectionsInit (serverConnections memory) (sampleSetup 64 24 64)).
Proof.
  split.
  - apply (init_checks_limits (collaborators := modelCollaborators) memory (sampleSetup 1 25 1)).
    left. cbn [sampleSetup maxSingleParticipantStepOctetCount]. lia.
  - apply (init_checks_limits (collaborators := modelCollaborators) memory (sampleSetup 64 24 64)).
    cbn [sampleSetup maxSingleParticipantStepOctetCount maxConnectionCount maxParticipantCount]. lia.
Defined.

(** ** server.c: connecting and disconnecting a slot *)

Lemma arrayAt_nonneg {A : Type} (l : list A) (i : Z) :
  0 <= i -> arrayAt l i = l !! Z.to_nat i.
Proof.
  intros H. unfold arrayAt. destruct (i <? 0) eqn:E; [apply Z.ltb_lt in E; lia | reflexivity].
Qed.

Lemma arrayAt_Some {A : Type} (l : list A) (i : Z) (x : A) :
  arrayAt l i = Some x -> 0 <= i < Z.of_nat (length l) /\ l !! Z.to_nat i = Some x.
Proof.
  unfold arrayAt. destruct (i <? 0) eqn:E; [discriminate |].
  apply Z.ltb_ge in E. intros H. split; [| exact H].
  apply lookup_lt_Some in H. lia.
Qed.

Section ConnectionFacts.
Context {collaborators : ServerCollaborators}.

(** C7.  On a slot whose transport connection is in use,
    [nimbleServerConnectionConnected] answers -44 and leaves the server as it
    is.  On a slot not in use it answers 0 and the slot is then in use, in
    phase Idle, with [nextAuthoritativeStepIdToSend] 0xFFFFFFFF and
    [nextBlobStreamOutChannel] 127; the other slots are left alone. *)
Theorem connected_on_used_or_unused_slot (self : NimbleServer) (connectionIndex : Z)
  (tc : NimbleServerTransportConnection) :
  0 <= connectionIndex < 256 ->
  transportConnections self !! Z.to_nat connectionIndex = Some tc ->
  (tcIsUsed tc = true ->
   nimbleServerConnectionConnected self connectionIndex = Some (-44, self)) /\
  (tcIsUsed tc = false ->
   exists self' tc',
     nimbleServerConnectionConnected self connectionIndex = Some (0, self') /\
     transportConnections self' !! Z.to_nat connectionIndex = Some tc' /\
     tcIsUsed tc' = true /\
     phase tc' = NbTransportConnectionPhaseIdle /\
     nextAuthoritativeStepIdToSend tc' = 0xFFFFFFFF /\
     nextBlobStreamOutChannel tc' = 127 /\
     forall j, j <> Z.to_nat connectionIndex ->
       transportConnections self' !! j = transportConnections self !! j).
Proof.
  intros Hi Htc. unfold nimbleServerConnectionConnected.
  rewrite (uint8_small _ Hi), arrayAt_nonneg by lia. rewrite Htc. simpl.
  split; intros Hused; rewrite Hused; [reflexivity |].
  eexists. eexists. split; [reflexivity |].
  unfold storeTransportConnection. cbn [transportConnections withTransportConnections].
  split.
  - apply list_lookup_insert_eq. apply lookup_lt_Some in Htc. exact Htc.
  - repeat split. intros j Hj. apply list_lookup_insert_ne. congruence.
Qed.

(** C6.  [nimbleServerConnectionDisconnected] answers -2 when no
    participant connection is found for the connection index, and -4 when
    the one found is not in use, the server being left as it is.  Otherwise
    the participant connection gets the id 0x100 and is no longer in use,
    [hasReceivedInitialDatagram] of the slot's transport connection is
    reset, nothing else changes, and the answer is 0. *)
Theorem disconnected_results (self : NimbleServer) (connectionIndex : Z) :
  0 <= connectionIndex < 256 ->
  let pool := serverConnections self in
  let found := nbdParticipantConnectionsFindConnection pool connectionIndex in
  (found = None ->
   nimbleServerConnectionDisconnected self connectionIndex = Some (-2, self)) /\
  (forall k pc,
     found = Some k -> connections pool !! k = Some pc -> pcIsUsed pc = false ->
     nimbleServerConnectionDisconnected self connectionIndex = Some (-4, self)) /\
  (forall k pc tc,
     found = Some k -> connections pool !! k = Some pc -> pcIsUsed pc = true ->
     transportConnections self !! Z.to_nat connectionIndex = Some tc ->
     exists self' pc' tc',
       nimbleServerConnectionDisconnected self connectionIndex = Some (0, self') /\
       connections (serverConnections self') !! k = Some pc' /\
       id pc' = 0x100 /\
       pcIsUsed pc' = false /\
       transportConnections self' !! Z.to_nat connectionIndex = Some tc' /\
       hasReceivedInitialDatagram (orderedDatagramInLogic tc') = false /\
       tcIsUsed tc' = tcIsUsed tc /\
       (forall j, j <> k ->
          connections (serverConnections self') !! j = connections pool !! j) /\
       (forall j, j <> Z.to_nat connectionIndex ->
          transportConnections self' !! j = transportConnections self !! j) /\
       game self' = game self).
Proof.
  intros Hi pool found. unfold nimbleServerConnectionDisconnected.
  rewrite (uint8_small _ Hi). fold pool. fold found.
  split; [intros Hf; rewrite Hf; reflexivity |].
  split.
  - intros k pc Hf Hk Hu. rewrite Hf, Hk. simpl. rewrite Hu. reflexivity.
  - intros k pc tc Hf Hk Hu Htc. rewrite Hf, Hk. simpl. rewrite Hu. simpl.
    rewrite arrayAt_nonneg by lia. rewrite Htc. simpl.
    eexists. eexists. eexists. split; [reflexivity |].
    unfold storeTransportConnection.
    cbn [transportConnections withTransportConnections serverConnections
         withServerConnections connections withConnections game].
    split; [apply list_lookup_insert_eq; apply lookup_lt_Some in Hk; exact Hk |].
    split; [reflexivity |]. split; [reflexivity |].
    split; [apply list_lookup_insert_eq; apply lookup_lt_Some in Htc; exact Htc |].
    split; [reflexivity |]. split; [reflexivity |].
    split; [intros j Hj; apply list_lookup_insert_ne; congruence |].
    split; [intros j Hj; apply list_lookup_insert_ne; congruence | reflexivity].
Qed.

End ConnectionFacts.

(** Slot 0 of the fresh server is not in use; after the join it is. *)
Lemma connected_on_used_or_unused_slot_witness :
  (tcIsUsed blankTransportConnection = true ->
   nimbleServerConnectionConnected memory 0 = Some (-44, memory)) /\
  (tcIsUsed blankTransportConnection = false ->
   exists self' tc',
     nimbleServerConnectionConnected memory 0 = Some (0, self') /\
     transportConnections self' !! Z.to_nat 0 = Some tc' /\
     tcIsUsed tc' = true /\
     phase tc' = NbTransportConnectionPhaseIdle /\
     nextAuthoritativeStepIdToSend tc' = 0xFFFFFFFF /\
     nextBlobStreamOutChannel tc' = 127 /\
     forall j, j <> Z.to_nat 0 ->
       transportConnections self' !! j = transportConnections memory !! j).
Proof.
  apply (connected_on_used_or_unused_slot (collaborators := modelCollaborators)
           memory 0 blankTransportConnection); [lia | reflexivity].
Defined.

(** The participant connection that the join created is found for slot 0,
    not for slot 1. *)
Lemma disconnected_results_witness :
  nimbleServerConnectionDisconnected joinedServer 1 = Some (-2, joinedServer) /\
  exists self',
    nimbleServerConnectionDisconnected joinedServer 0 = Some (0, self') /\
    nimbleServerConnectionDisconnected self' 0 = Some (-4, self').
Proof.
  split.
  - apply (disconnected_results (collaborators := modelCollaborators) joinedServer 1);
      [lia | reflexivity].
  - destruct (proj2 (proj2 (disconnected_results (collaborators := modelCollaborators)
                              joinedServer 0 ltac:(lia))))
      with (k := O) (pc := default (mkParticipantConnection 0 false (mkNbsSteps 0 0 0) [] [] 0 0 0 0)
                                   (connections (serverConnections joinedServer) !! O))
           (tc := default blankTransportConnection (transportConnections joinedServer !! O))
      as (self' & pc' & tc' & Hrun & Hpc & Hid & Hused & _);
      [reflexivity | reflexivity | reflexivity | reflexivity |].
    exists self'. split; [exact Hrun |].
    apply (proj1 (proj2 (disconnected_results (collaborators := modelCollaborators)
                           self' 0 ltac:(lia)))) with (k := O) (pc := pc');
      [| exact Hpc | exact Hused].
    vm_compute in Hrun. injection Hrun as <-. reflexivity.
Defined.

(** ** server.c: the dispatcher and the drain loop *)

Section DispatcherFacts.
Context {collaborators : ServerCollaborators}.

Lemma handlerOf_unknown (cmd : Z) : isRequest cmd = false -> handlerOf cmd = None.
Proof.
  unfold isRequest, handlerOf. intros H.
  destruct (cmd =? NimbleSerializeCmdGameStep); [discriminate |].
  destruct (cmd =? NimbleSerializeCmdJoinGameRequest); [discriminate |].
  destruct (cmd =? NimbleSerializeCmdDownloadGameStateRequest); [discriminate |].
  reflexivity.
Qed.

Lemma feed_beyond_64 (self : NimbleServer) (connectionIndex : Z) (data : list Z) (len : Z)
  (response : Send) :
  64 < connectionIndex < 256 ->
  nimbleServerFeed self connectionIndex data len response = Some (-13, self, []).
Proof.
  intros H. unfold nimbleServerFeed. rewrite uint8_small by lia.
  destruct (connectionIndex >? 64) eqn:E; [reflexivity |].
  rewrite Z.gtb_ltb in E. apply Z.ltb_ge in E. lia.
Qed.

(** C4.  The guard of [nimbleServerFeed] is [connectionIndex > 64]: a
    connection index above 64 is answered with -13 and no handler runs, but
    index 64 passes the guard and the feed goes on to read
    [transportConnections[64]], past the 64 entries of the array, which has
    no defined result. *)
Theorem feed_guard_misses_index_64 (self : NimbleServer) (data : list Z) (len : Z)
  (response : Send) :
  length (transportConnections self) = Z.to_nat NBD_SERVER_MAX_TRANSPORT_CONNECTIONS ->
  nimbleServerFeed self 64 data len response = None /\
  nimbleServerFeed self 64 data len response <> Some (-13, self, []) /\
  forall connectionIndex, 64 < connectionIndex < 256 ->
    nimbleServerFeed self connectionIndex data len response = Some (-13, self, []).
Proof.
  intros Hlen.
  assert (H64 : nimbleServerFeed self 64 data len response = None).
  { unfold nimbleServerFeed. rewrite uint8_small by lia.
    change (64 >? 64) with false. cbv iota.
    rewrite arrayAt_nonneg by lia.
    rewrite (proj2 (lookup_ge_None _ _)); [reflexivity |].
    rewrite Hlen. reflexivity. }
  split; [exact H64 |]. split; [rewrite H64; discriminate |].
  intros connectionIndex H. apply feed_beyond_64. exact H.
Qed.

(** C5.  A negative answer of [receiveFrom] is what
    [nimbleServerReadFromMultiTransport] returns, and [nimbleServerUpdate]
    does not look at it: it returns 0, as it does whatever was received. *)
Theorem update_drops_receive_error (self : NimbleServer) (now : Z) (r : Received)
  (incoming : list Received) :
  octetCountReceived r < 0 ->
  nimbleServerReadFromMultiTransport self (r :: incoming) =
    Some (octetCountReceived r, self, []) /\
  (exists self', nimbleServerUpdate self now (r :: incoming) = Some (0, self', [])) /\
  (forall received result self' sent,
     nimbleServerUpdate self now received = Some (result, self', sent) -> result = 0).
Proof.
  intros H.
  assert (Hread : nimbleServerReadFromMultiTransport self (r :: incoming) =
                  Some (octetCountReceived r, self, [])).
  { unfold nimbleServerReadFromMultiTransport. cbn [receiveLoop].
    destruct (octetCountReceived r =? 0) eqn:E0; [apply Z.eqb_eq in E0; lia |].
    destruct (octetCountReceived r <? 0) eqn:E1; [reflexivity |].
    apply Z.ltb_ge in E1. lia. }
  split; [exact Hread |]. split.
  - unfold nimbleServerUpdate. rewrite Hread. simpl. eexists. reflexivity.
  - intros received result self' sent. unfold nimbleServerUpdate.
    destruct (nimbleServerReadFromMultiTransport self received) as [[[code self1] sent1] |];
      simpl; [| discriminate].
    intros Hupdate. injection Hupdate as <- _ _. reflexivity.
Qed.

(** C8, amended.  On a connection index below 64, a datagram whose command
    byte is none of GameStep, JoinGameRequest, DownloadGameStateRequest and
    DownloadGameStateStatus is answered with 0 and no datagram is sent; the
    game, the participant connections and the [isUsed] flags stay as they
    were. *)
Theorem unknown_command_is_dropped (self : NimbleServer) (connectionIndex : Z)
  (data : list Z) (len : Z) (response : Send)
  (tc : NimbleServerTransportConnection) (cmd : Z) :
  0 <= connectionIndex < 64 ->
  transportConnections self !! Z.to_nat connectionIndex = Some tc ->
  commandOf (orderedDatagramInLogic tc) data len = Some cmd ->
  isRequest cmd = false ->
  exists self',
    nimbleServerFeed self connectionIndex data len response = Some (0, self', []) /\
    game self' = game self /\
    serverConnections self' = serverConnections self.
Proof.
  intros Hi Htc Hcmd Hunknown.
  unfold nimbleServerFeed. rewrite uint8_small by lia.
  destruct (connectionIndex >? 64) eqn:E; [apply Z.gtb_lt in E; lia |].
  rewrite arrayAt_nonneg by lia. rewrite Htc. simpl.
  unfold commandOf in Hcmd.
  destruct (orderedDatagramInLogicReceive (orderedDatagramInLogic tc) (fldInStreamInit data len))
    as [[r0 inLogic] inStream].
  destruct (fldInStreamReadUInt8 inStream) as [read inStream'].
  simpl in Hcmd. subst read. simpl.
  assert (Hstatus : (cmd =? NimbleSerializeCmdDownloadGameStateStatus) = false).
  { unfold isRequest in Hunknown. apply orb_false_iff in Hunknown. tauto. }
  rewrite Hstatus.
  destruct (orderedDatagramOutLogicPrepare _ _) as [[r1 outLogic] outStream].
  rewrite (handlerOf_unknown cmd Hunknown).
  eexists. split; [reflexivity |]. split; reflexivity.
Qed.

End DispatcherFacts.

Lemma feed_guard_misses_index_64_witness :
  nimbleServerFeed freshServer 64 [0; 0; 255] 3 (fun _ => 0) = None /\
  nimbleServerFeed freshServer 64 [0; 0; 255] 3 (fun _ => 0) <> Some (-13, freshServer, []) /\
  forall connectionIndex, 64 < connectionIndex < 256 ->
    nimbleServerFeed freshServer connectionIndex [0; 0; 255] 3 (fun _ => 0) =
      Some (-13, freshServer, []).
Proof.
  apply (feed_guard_misses_index_64 (collaborators := modelCollaborators)
           freshServer [0; 0; 255] 3 (fun _ => 0)).
  reflexivity.
Defined.

Lemma update_drops_receive_error_witness :
  nimbleServerReadFromMultiTransport freshServer [mkReceived (-1) 0 []] =
    Some (-1, freshServer, []) /\
  (exists self', nimbleServerUpdate freshServer 0 [mkReceived (-1) 0 []] = Some (0, self', [])) /\
  (forall received result self' sent,
     nimbleServerUpdate freshServer 0 received = Some (result, self', sent) -> result = 0).
Proof.
  apply (update_drops_receive_error (collaborators := modelCollaborators)
           freshServer 0 (mkReceived (-1) 0 []) []).
  simpl. lia.
Defined.

(** C8, as it stands, fails beyond slot 64: the datagram with command byte
    0xFF is answered with -13 there. *)
Lemma unknown_command_refused_beyond_64 :
  ~ UnknownCommandIsDropped (collaborators := modelCollaborators).
Proof.
  intros claim.
  destruct (claim freshServer 65 [0; 0; 255] 3 (fun _ => 0) 255) as [self' H];
    [lia | reflexivity | reflexivity |].
  rewrite feed_beyond_64 in H by lia. discriminate.
Qed.

Lemma unknown_command_is_dropped_witness :
  exists self',
    nimbleServerFeed freshServer 0 [0; 0; 255] 3 (fun _ => 0) = Some (0, self', []) /\
    game self' = game freshServer /\
    serverConnections self' = serverConnections freshServer.
Proof.
  apply (unknown_command_is_dropped (collaborators := modelCollaborators)
           freshServer 0 [0; 0; 255] 3 (fun _ => 0) (resetSlot 0 blankTransportConnection) 255);
    [lia | reflexivity | reflexivity | reflexivity].
Defined.

(** ** The [isUsed] flag of a slot along a sequence of calls *)

Lemma resetSlots_length (count first : nat) (tcs : list NimbleServerTransportConnection) :
  length (resetSlots count first tcs) = length tcs.
Proof.
  revert first tcs. induction count as [| count IH]; intros first tcs; simpl; [reflexivity |].
  rewrite IH. apply length_alter.
Qed.

Lemma resetSlots_before (count first j : nat) (tcs : list NimbleServerTransportConnection) :
  (j < first)%nat -> resetSlots count first tcs !! j = tcs !! j.
Proof.
  revert first tcs. induction count as [| count IH]; intros first tcs Hj; simpl; [reflexivity |].
  rewrite IH by lia. apply list_lookup_alter_ne. lia.
Qed.

Lemma resetSlots_unused (count first j : nat) (tcs : list NimbleServerTransportConnection)
  (tc : NimbleServerTransportConnection) :
  (first <= j < first + count)%nat ->
  resetSlots count first tcs !! j = Some tc ->
  tcIsUsed tc = false.
Proof.
  revert first tcs. induction count as [| count IH]; intros first tcs Hj Htc; [lia |].
  simpl in Htc. destruct (decide (j = first)) as [-> | Hne].
  - rewrite resetSlots_before in Htc by lia.
    rewrite list_lookup_alter_eq in Htc.
    destruct (tcs !! first) as [tc0 |]; simpl in Htc; [| discriminate].
    injection Htc as <-. reflexivity.
  - apply (IH (S first) _ ltac:(lia) Htc).
Qed.

Section SlotFacts.
Context {collaborators : ServerCollaborators}.

Lemma usedFlags_store (self : NimbleServer) (i : Z) (tc' : NimbleServerTransportConnection) :
  usedFlags (storeTransportConnection i tc' self) =
    <[Z.to_nat i := tcIsUsed tc']> (usedFlags self).
Proof. unfold usedFlags, storeTransportConnection. simpl. apply list_fmap_insert. Qed.

Lemma usedFlags_store_same (self : NimbleServer) (i : Z)
  (tc tc' : NimbleServerTransportConnection) :
  arrayAt (transportConnections self) i = Some tc ->
  tcIsUsed tc' = tcIsUsed tc ->
  usedFlags (storeTransportConnection i tc' self) = usedFlags self.
Proof.
  intros [_ H]%arrayAt_Some Hu. rewrite usedFlags_store. apply list_insert_id.
  unfold usedFlags. rewrite list_lookup_fmap, H. simpl. congruence.
Qed.

Lemma arrayAt_store (self : NimbleServer) (i : Z) (tc tc' : NimbleServerTransportConnection) :
  arrayAt (transportConnections self) i = Some tc ->
  arrayAt (transportConnections (storeTransportConnection i tc' self)) i = Some tc'.
Proof.
  intros [Hr H]%arrayAt_Some. rewrite arrayAt_nonneg by lia.
  unfold storeTransportConnection. simpl. apply list_lookup_insert_eq.
  apply lookup_lt_Some in H. exact H.
Qed.

(** A feed leaves the [isUsed] flag of every slot as it is, if the handlers do. *)
Lemma feed_keeps_usedFlags (self : NimbleServer) (connectionIndex : Z) (data : list Z)
  (len : Z) (response : Send) (result : Z) (self' : NimbleServer) (sent : list (list Z)) :
  HandlersKeepIsUsed ->
  nimbleServerFeed self connectionIndex data len response = Some (result, self', sent) ->
  usedFlags self' = usedFlags self.
Proof.
  intros (Hstep & Hjoin & Hdownload & Hack). unfold nimbleServerFeed.
  set (idx := uint8 connectionIndex).
  destruct (idx >? 64); [intros H; injection H as _ <- _; reflexivity |].
  destruct (arrayAt (transportConnections self) idx) as [tc |] eqn:Htc; simpl; [| discriminate].
  destruct (orderedDatagramInLogicReceive _ _) as [[r0 inLogic] inStream].
  destruct (fldInStreamReadUInt8 inStream) as [[cmd |] inStream']; simpl; [| discriminate].
  set (self1 := storeTransportConnection idx (withInLogic inLogic tc) self).
  assert (H1 : usedFlags self1 = usedFlags self)
    by (apply (usedFlags_store_same self idx tc); [exact Htc | reflexivity]).
  assert (Htc1 : arrayAt (transportConnections self1) idx = Some (withInLogic inLogic tc))
    by (apply (arrayAt_store self idx tc); exact Htc).
  destruct (cmd =? NimbleSerializeCmdDownloadGameStateStatus).
  { intros H. injection H as H. apply Hack in H. congruence. }
  destruct (orderedDatagramOutLogicPrepare _ _) as [[r1 outLogic] outStream].
  set (self2 := storeTransportConnection idx _ self1).
  assert (H2 : usedFlags self2 = usedFlags self).
  { rewrite <- H1. apply (usedFlags_store_same self1 idx (withInLogic inLogic tc));
      [exact Htc1 | reflexivity]. }
  assert (Hhandler : forall handler, keepsIsUsed handler ->
    (let '(result0, self0, _, outStream0) := handler self2 idx inStream' outStream in
     if result0 <? 0 then Some (result0, self0, [])
     else if outPos outStream0 <=? 2 then Some (0, self0, [])
     else
       arrayAt (transportConnections self0) idx ≫= λ transportConnection,
         let transportConnection0 :=
           withOutLogic (orderedDatagramOutLogicCommit (orderedDatagramOutLogic transportConnection))
                        transportConnection in
         let self3 := storeTransportConnection idx transportConnection0 self0 in
         let reply := take (Z.to_nat (outPos outStream0)) (outOctets outStream0) in
         Some (response reply, self3, [reply])) = Some (result, self', sent) ->
    usedFlags self' = usedFlags self).
  { intros handler Hkeep.
    destruct (handler self2 idx inStream' outStream) as [[[result0 self0] inStream0] outStream0]
      eqn:Hrun.
    apply Hkeep in Hrun.
    destruct (result0 <? 0); [intros H; injection H as _ <- _; congruence |].
    destruct (outPos outStream0 <=? 2); [intros H; injection H as _ <- _; congruence |].
    destruct (arrayAt (transportConnections self0) idx) as [tc0 |] eqn:Htc0; simpl;
      [| discriminate].
    intros H. injection H as _ <- _.
    rewrite (usedFlags_store_same self0 idx tc0); [congruence | exact Htc0 | reflexivity]. }
  unfold handlerOf.
  destruct (cmd =? NimbleSerializeCmdGameStep); [apply Hhandler; exact Hstep |].
  destruct (cmd =? NimbleSerializeCmdJoinGameRequest); [apply Hhandler; exact Hjoin |].
  destruct (cmd =? NimbleSerializeCmdDownloadGameStateRequest);
    [apply Hhandler; exact Hdownload |].
  intros H. injection H as _ <- _. exact H2.
Qed.

Lemma connected_usedFlags (self : NimbleServer) (connectionIndex : Z) (result : Z)
  (self' : NimbleServer) :
  nimbleServerConnectionConnected self connectionIndex = Some (result, self') ->
  (result = -44 /\ self' = self) \/
  (result = 0 /\
   usedFlags self' = <[Z.to_nat (uint8 connectionIndex) := true]> (usedFlags self)).
Proof.
  unfold nimbleServerConnectionConnected.
  destruct (arrayAt _ _) as [tc |]; simpl; [| discriminate].
  destruct (tcIsUsed tc); intros H; injection H as <- <-; [left; split; reflexivity |].
  right. split; [reflexivity |]. apply usedFlags_store.
Qed.

Lemma disconnected_keeps_usedFlags (self : NimbleServer) (connectionIndex : Z) (result : Z)
  (self' : NimbleServer) :
  nimbleServerConnectionDisconnected self connectionIndex = Some (result, self') ->
  usedFlags self' = usedFlags self.
Proof.
  unfold nimbleServerConnectionDisconnected.
  destruct (nbdParticipantConnectionsFindConnection _ _) as [k |];
    [| intros H; injection H as _ <-; reflexivity].
  destruct (connections (serverConnections self) !! k) as [pc |]; simpl; [| discriminate].
  destruct (pcIsUsed pc); simpl; [| intros H; injection H as _ <-; reflexivity].
  destruct (arrayAt _ _) as [tc |] eqn:Htc; simpl; [| discriminate].
  intros H. injection H as _ <-.
  rewrite (usedFlags_store_same _ _ tc); [reflexivity | exact Htc | reflexivity].
Qed.

Lemma init_usedFlags (self : NimbleServer) (setup_ : NimbleServerSetup) (result : Z)
  (self' : NimbleServer) :
  length (transportConnections self) = Z.to_nat NBD_SERVER_MAX_TRANSPORT_CONNECTIONS ->
  nimbleServerInit self setup_ = (result, self') ->
  length (transportConnections self') = Z.to_nat NBD_SERVER_MAX_TRANSPORT_CONNECTIONS /\
  ((result = 0 /\ forall j tc, transportConnections self' !! j = Some tc -> tcIsUsed tc = false) \/
   (result <> 0 /\ usedFlags self' = usedFlags self)).
Proof.
  intros Hlen. unfold nimbleServerInit.
  destruct (maxConnectionCount setup_ >? _);
    [intros H; injection H as <- <-; split; [exact Hlen | right; split; [lia | reflexivity]] |].
  destruct (maxSingleParticipantStepOctetCount setup_ >? _);
    [intros H; injection H as <- <-; split; [exact Hlen | right; split; [lia | reflexivity]] |].
  destruct (maxParticipantCount setup_ >? _);
    [intros H; injection H as <- <-; split; [exact Hlen | right; split; [lia | reflexivity]] |].
  intros H.
  pose proof (f_equal fst H) as Hresult. pose proof (f_equal snd H) as Hself.
  cbn [fst snd] in Hresult, Hself. clear H. subst result self'.
  cbn [transportConnections].
  split; [rewrite resetSlots_length; exact Hlen |].
  left. split; [reflexivity |]. intros j tc Htc.
  pose proof (lookup_lt_Some _ _ _ Htc) as Hj. rewrite resetSlots_length, Hlen in Hj.
  apply (resetSlots_unused _ 0 j _ tc (conj (Nat.le_0_l j) Hj) Htc).
Qed.

End SlotFacts.

Lemma covers_more (used : list bool) (flags : SlotFlags) (i : Z) :
  covers used flags -> covers used (setFlag i true flags).
Proof.
  intros [Hlen H]. split; [exact Hlen |]. intros j Hj. unfold setFlag.
  destruct (j =? i); [reflexivity | apply H; exact Hj].
Qed.

Lemma covers_set (used : list bool) (flags : SlotFlags) (i : Z) :
  0 <= i -> covers used flags ->
  covers (<[Z.to_nat i := true]> used) (setFlag i true flags).
Proof.
  intros Hi [Hlen H]. split; [rewrite length_insert; exact Hlen |].
  intros j Hj. unfold setFlag. destruct (j =? i) eqn:E; [reflexivity |].
  apply Z.eqb_neq in E. apply H.
  destruct (arrayAt_Some _ _ _ Hj) as [Hr Hl].
  rewrite arrayAt_nonneg by lia.
  rewrite list_lookup_insert_ne in Hl by lia. exact Hl.
Qed.

Lemma covers_none (used : list bool) :
  length used = Z.to_nat NBD_SERVER_MAX_TRANSPORT_CONNECTIONS ->
  (forall j b, used !! j = Some b -> b = false) ->
  covers used noSlot.
Proof.
  intros Hlen H. split; [exact Hlen |]. intros i Hi.
  destruct (arrayAt_Some _ _ _ Hi) as [_ Hl]. apply H in Hl. discriminate.
Qed.

Section Invariant.
Context {collaborators : ServerCollaborators}.
Hypothesis handlers : HandlersKeepIsUsed.

Lemma init_covers (self : NimbleServer) (setup_ : NimbleServerSetup) (result : Z)
  (self' : NimbleServer) (flags : SlotFlags) :
  length (usedFlags self) = Z.to_nat NBD_SERVER_MAX_TRANSPORT_CONNECTIONS ->
  nimbleServerInit self setup_ = (result, self') ->
  (result = 0 /\ covers (usedFlags self') noSlot) \/
  (result <> 0 /\ usedFlags self' = usedFlags self).
Proof.
  intros Hlen Hinit. unfold usedFlags in Hlen. rewrite length_fmap in Hlen.
  destruct (init_usedFlags self setup_ result self' Hlen Hinit) as [Hlen' [[Hr H] | [Hr H]]].
  - left. split; [exact Hr |]. apply covers_none.
    + unfold usedFlags. rewrite length_fmap. exact Hlen'.
    + intros j b Hj. unfold usedFlags in Hj. rewrite list_lookup_fmap in Hj.
      destruct (transportConnections self' !! j) as [tc |] eqn:Htc; simpl in Hj;
        [| discriminate].
      injection Hj as <-. apply (H j tc Htc).
  - right. split; assumption.
Qed.

Lemma perform_preserves (c : Call) (self : NimbleServer) (flags : SlotFlags) (result : Z)
  (self' : NimbleServer) :
  covers (usedFlags self) flags ->
  perform c self = Some (result, self') ->
  covers (usedFlags self') (connectedSinceInit c self result flags).
Proof.
  intros Hcov. unfold connectedSinceInit.
  destruct c as [setup_ | i | i | i data len response | mt r]; cbn [perform initialised acceptedSlot].
  - intros H. injection H as H.
    destruct (init_covers self setup_ result self' flags (proj1 Hcov) H) as [[-> Hc] | [Hr Hu]].
    + exact Hc.
    + destruct (result =? 0) eqn:E; [apply Z.eqb_eq in E; contradiction |].
      rewrite Hu. exact Hcov.
  - intros H. destruct (connected_usedFlags self i result self' H) as [[-> ->] | [-> Hu]].
    + exact Hcov.
    + cbn. rewrite Hu. apply covers_set; [apply wrap_range; lia | exact Hcov].
  - intros H. rewrite (disconnected_keeps_usedFlags self i result self' H). exact Hcov.
  - destruct (nimbleServerFeed self i data len response) as [[[result0 self0] sent] |] eqn:Hfeed;
      simpl; [| discriminate].
    intros H. injection H as <- <-.
    rewrite (feed_keeps_usedFlags _ _ _ _ _ _ _ _ handlers Hfeed). exact Hcov.
  - unfold datagramReceived.
    destruct (arrayAt (transportConnections self) (connectionId r)) as [tc |] eqn:Htc; simpl;
      [| discriminate].
    destruct (tcIsUsed tc) eqn:Hused; simpl.
    + destruct (nimbleServerFeed self _ _ _ _) as [[[result0 self0] sent] |] eqn:Hfeed;
        simpl; [| discriminate].
      intros H. injection H as <- <-.
      rewrite (feed_keeps_usedFlags _ _ _ _ _ _ _ _ handlers Hfeed). exact Hcov.
    + destruct (nimbleServerConnectionConnected self (connectionId r)) as [[result1 self1] |]
        eqn:Hconnected; simpl; [| discriminate].
      destruct (nimbleServerFeed self1 _ _ _ _) as [[[result0 self0] sent] |] eqn:Hfeed;
        simpl; [| discriminate].
      intros H. injection H as <- <-.
      rewrite (feed_keeps_usedFlags _ _ _ _ _ _ _ _ handlers Hfeed).
      destruct (connected_usedFlags self _ result1 self1 Hconnected) as [[_ ->] | [_ Hu]].
      * apply covers_more. exact Hcov.
      * rewrite Hu. apply covers_set; [apply wrap_range; lia | exact Hcov].
Qed.

Lemma run_preserves (calls : list Call) (self : NimbleServer) (flags : SlotFlags)
  (self' : NimbleServer) (flags' : SlotFlags) :
  covers (usedFlags self) flags ->
  run connectedSinceInit calls self flags = Some (self', flags') ->
  covers (usedFlags self') flags'.
Proof.
  revert self flags. induction calls as [| c calls IH]; intros self flags Hcov; simpl.
  - intros H. injection H as <- <-. exact Hcov.
  - destruct (perform c self) as [[result self1] |] eqn:Hperform; simpl; [| discriminate].
    apply IH. apply perform_preserves; assumption.
Qed.

(** C3, amended.  In every state that calls of [nimbleServerInit],
    [nimbleServerConnectionConnected], [nimbleServerConnectionDisconnected]
    and fed datagrams reach, a slot whose [isUsed] is set accepted
    connectionConnected, from the host or through an arriving datagram, since
    the server was last initialised.  The request handlers are taken to
    leave the flag alone. *)
Theorem used_slot_was_connected (self : NimbleServer) (flags : SlotFlags) (i : Z)
  (tc : NimbleServerTransportConnection) :
  reachable connectedSinceInit self flags ->
  arrayAt (transportConnections self) i = Some tc ->
  tcIsUsed tc = true ->
  flags i = true.
Proof.
  intros (memory0 & setup_ & self1 & calls & Hlen & Hinit & Hrun) Htc Hused.
  assert (Hcov1 : covers (usedFlags self1) noSlot).
  { destruct (init_covers memory0 setup_ 0 self1 noSlot) as [[_ H] | [H _]];
      [unfold usedFlags; rewrite length_fmap; exact Hlen | exact Hinit | exact H | contradiction]. }
  destruct (run_preserves calls self1 noSlot self flags Hcov1 Hrun) as [_ H].
  apply H. destruct (arrayAt_Some _ _ _ Htc) as [Hr Hl].
  rewrite arrayAt_nonneg by lia. unfold usedFlags.
  rewrite list_lookup_fmap, Hl. simpl. rewrite Hused. reflexivity.
Qed.

(** What the drain loop of [nimbleServerReadFromMultiTransport] does to the
    server is what the datagrams it took do, one call each. *)
Lemma drain_is_datagram_calls
  (track : Call -> NimbleServer -> Z -> SlotFlags -> SlotFlags) (turns : nat)
  (self : NimbleServer) (mt : Z) (incoming : list Received) (result : Z)
  (self' : NimbleServer) (sent : list (Z * list Z)) (flags : SlotFlags) :
  receiveLoop turns self mt incoming = Some (result, self', sent) ->
  exists k flags',
    run track (CallDatagram mt <$> take k incoming) self flags = Some (self', flags').
Proof.
  revert self incoming result sent flags.
  induction turns as [| turns IH]; intros self incoming result sent flags; simpl.
  - intros H. injection H as _ <- _. exists O, flags. reflexivity.
  - destruct incoming as [| r incoming].
    + intros H. injection H as _ <- _. exists O, flags. reflexivity.
    + destruct (octetCountReceived r =? 0);
        [intros H; injection H as _ <- _; exists O, flags; reflexivity |].
      destruct (octetCountReceived r <? 0);
        [intros H; injection H as _ <- _; exists O, flags; reflexivity |].
      destruct (datagramReceived self mt r) as [[[errorCode self1] sent1] |] eqn:Hd; simpl;
        [| discriminate].
      destruct (errorCode <? 0).
      * intros H. injection H as _ <- _. exists 1%nat. eexists. simpl. rewrite Hd. reflexivity.
      * destruct (receiveLoop turns self1 mt incoming) as [[[result2 self2] sent2] |] eqn:Hl;
          simpl; [| discriminate].
        intros H. injection H as _ <- _.
        destruct (IH _ _ _ _ (track (CallDatagram mt r) self errorCode flags) Hl)
          as (k & flags' & Hk).
        exists (S k), flags'. simpl. rewrite Hd. simpl. exact Hk.
Qed.

End Invariant.

(** ** The model of the collaborators keeps to what is asked of handlers *)

Lemma model_handlers_keep_isUsed : HandlersKeepIsUsed (collaborators := modelCollaborators).
Proof.
  assert (Hnone : keepsIsUsed modelNoReply).
  { intros self i inStream outStream result self' inStream' outStream' H.
    unfold modelNoReply in H. injection H as _ <- _ _. reflexivity. }
  repeat split; try exact Hnone.
  - intros self i inStream outStream result self' inStream' outStream'.
    cbn [nbdReqGameJoin modelCollaborators]. unfold modelReqGameJoin.
    destruct (capacityCount (serverConnections self) <=? _);
      [intros H; injection H as _ <- _ _; reflexivity |].
    destruct (arrayAt (transportConnections self) i) as [tc |] eqn:Htc;
      [| intros H; injection H as _ <- _ _; reflexivity].
    intros H. injection H as _ <- _ _.
    rewrite (usedFlags_store_same _ i tc); [reflexivity | exact Htc | reflexivity].
  - intros self i inStream response result self' sent H.
    cbn [nbdReqDownloadGameStateAck modelCollaborators] in H.
    injection H as _ <- _. reflexivity.
Qed.

Lemma after_reachable (track : Call -> NimbleServer -> Z -> SlotFlags -> SlotFlags)
  (calls : list Call) :
  is_Some (run track calls freshServer noSlot) ->
  reachable track (fst (after track calls)) (snd (after track calls)).
Proof.
  intros [[self flags] Hrun]. unfold after. rewrite Hrun. simpl.
  exists memory, (sampleSetup 1 4 1), freshServer, calls.
  split; [reflexivity |]. split; [| exact Hrun].
  unfold freshServer.
  destruct (nimbleServerInit memory (sampleSetup 1 4 1)) as [result self1] eqn:E.
  apply (f_equal fst) in E. cbn [fst snd] in *. rewrite <- E. reflexivity.
Qed.

(** C3, as it stands, fails: a client joins on slot 0, the host disconnects
    the slot with success, and [isUsed] of the slot is still set.  The
    handlers of the model leave the flag alone. *)
Lemma used_slot_after_disconnect :
  HandlersKeepIsUsed (collaborators := modelCollaborators) /\
  ~ UsedMeansConnectedNotDisconnected (collaborators := modelCollaborators).
Proof.
  split; [exact model_handlers_keep_isUsed |].
  intros claim.
  pose (final := after connectedNotDisconnected joinThenDisconnect).
  assert (Hflag : snd final 0 = true).
  { apply (claim (fst final) (snd final) 0
                 (default blankTransportConnection (transportConnections (fst final) !! O))).
    - apply after_reachable. vm_compute. eexists. reflexivity.
    - vm_compute. reflexivity.
    - vm_compute. reflexivity. }
  vm_compute in Hflag. discriminate.
Qed.

Lemma used_slot_was_connected_witness :
  snd (after connectedSinceInit joinThenDisconnect) 0 = true.
Proof.
  apply (used_slot_was_connected (collaborators := modelCollaborators)
           model_handlers_keep_isUsed
           (fst (after connectedSinceInit joinThenDisconnect))
           (snd (after connectedSinceInit joinThenDisconnect)) 0
           (default blankTransportConnection
              (transportConnections (fst (after connectedSinceInit joinThenDisconnect)) !! O))).
  - apply after_reachable. vm_compute. eexists. reflexivity.
  - vm_compute. reflexivity.
  - vm_compute. reflexivity.
Defined.

(** * Further properties of the code *)

(** ** req_step.c: the trim and the ways a GameStep request ends *)

Lemma uint32_add_l (a b : Z) : uint32 (uint32 a + b) = uint32 (a + b).
Proof. unfold uint32, wrap. apply Zplus_mod_idemp_l. Qed.

Section TrimFacts.
Context {collaborators : StepCollaborators}.

(** The game that the trim leaves, in one expression. *)
Lemma discard_result (g : NimbleServerGame) :
  0 <= NBS_WINDOW_SIZE < 2 ^ 64 ->
  0 <= stepsCount (authoritativeSteps g) < 2 ^ 64 ->
  discardAuthoritativeStepsIfBufferGettingFull g =
    (0, if stepsCount (authoritativeSteps g) >? Z.quot NBS_WINDOW_SIZE 3
        then withAuthoritativeSteps
               {| expectedReadId :=
                    uint32 (expectedReadId (authoritativeSteps g) +
                            (stepsCount (authoritativeSteps g) - Z.quot NBS_WINDOW_SIZE 3));
                  expectedWriteId := expectedWriteId (authoritativeSteps g);
                  stepsCount := Z.quot NBS_WINDOW_SIZE 3 |} g
        else g).
Proof.
  intros Hw Hc.
  assert (Hthird : 0 <= Z.quot NBS_WINDOW_SIZE 3 < 2 ^ 64).
  { split; [apply Z.quot_pos; lia |].
    apply Z.le_lt_trans with NBS_WINDOW_SIZE; [apply Z.quot_le_upper_bound; lia | lia]. }
  unfold discardAuthoritativeStepsIfBufferGettingFull.
  rewrite (size_t_small _ Hthird).
  destruct (stepsCount (authoritativeSteps g) >? Z.quot NBS_WINDOW_SIZE 3) eqn:E;
    [| reflexivity].
  apply Z.gtb_lt in E. rewrite size_t_small by lia.
  rewrite nbsStepsDiscardCount_ok by lia.
  replace (stepsCount (authoritativeSteps g) -
           (stepsCount (authoritativeSteps g) - Z.quot NBS_WINDOW_SIZE 3))
    with (Z.quot NBS_WINDOW_SIZE 3) by lia.
  reflexivity.
Qed.

(** X1.  The trim is idempotent: on the game that a trim left, a second trim
    answers 0 and changes nothing. *)
Theorem trim_twice_is_trim_once (g : NimbleServerGame) :
  0 <= NBS_WINDOW_SIZE < 2 ^ 64 ->
  0 <= stepsCount (authoritativeSteps g) < 2 ^ 64 ->
  let trimmed := snd (discardAuthoritativeStepsIfBufferGettingFull g) in
  discardAuthoritativeStepsIfBufferGettingFull trimmed = (0, trimmed).
Proof.
  intros Hw Hc trimmed. subst trimmed. rewrite (discard_result g Hw Hc). cbn [snd].
  assert (Hthird : 0 <= Z.quot NBS_WINDOW_SIZE 3 < 2 ^ 64).
  { split; [apply Z.quot_pos; lia |].
    apply Z.le_lt_trans with NBS_WINDOW_SIZE; [apply Z.quot_le_upper_bound; lia | lia]. }
  destruct (stepsCount (authoritativeSteps g) >? Z.quot NBS_WINDOW_SIZE 3) eqn:E.
  - rewrite discard_result; [| exact Hw | exact Hthird].
    cbn [authoritativeSteps withAuthoritativeSteps stepsCount].
    rewrite Z.gtb_ltb, Z.ltb_irrefl. reflexivity.
  - rewrite (discard_result g Hw Hc), E. reflexivity.
Qed.

(** X2.  The trim keeps the ring consistent and bounded: the write head stays
    where it was, the ring holds the smaller of what it held and
    [NBS_WINDOW_SIZE / 3] steps, and if [expectedReadId + stepsCount] was
    [expectedWriteId] (as [StepId]) before, it is afterwards. *)
Theorem trim_keeps_ring_consistent (g : NimbleServerGame) :
  0 <= NBS_WINDOW_SIZE < 2 ^ 64 ->
  0 <= stepsCount (authoritativeSteps g) < 2 ^ 64 ->
  let ring := authoritativeSteps g in
  let ring' := authoritativeSteps (snd (discardAuthoritativeStepsIfBufferGettingFull g)) in
  expectedWriteId ring' = expectedWriteId ring /\
  stepsCount ring' = Z.min (stepsCount ring) (Z.quot NBS_WINDOW_SIZE 3) /\
  (uint32 (expectedReadId ring + stepsCount ring) = expectedWriteId ring ->
   uint32 (expectedReadId ring' + stepsCount ring') = expectedWriteId ring').
Proof.
  intros Hw Hc ring ring'. subst ring'. rewrite (discard_result g Hw Hc). cbn [snd]. fold ring.
  destruct (stepsCount ring >? Z.quot NBS_WINDOW_SIZE 3) eqn:E.
  - apply Z.gtb_lt in E. cbn [authoritativeSteps withAuthoritativeSteps
                              expectedWriteId expectedReadId stepsCount].
    split; [reflexivity |]. split; [lia |].
    intros Hring. rewrite uint32_add_l. rewrite <- Hring. f_equal. lia.
  - rewrite Z.gtb_ltb in E. apply Z.ltb_ge in E. fold ring.
    split; [reflexivity |]. split; [lia |]. intros Hring. exact Hring.
Qed.

(** X3.  An ingest that fails ends the request with its code: the compose
    pass does not run, the statistics are not added to, the stats of the
    transport connection are not updated and no step range is written; the
    request is left as the failed ingest left it. *)
Theorem ingest_error_ends_request (r : StepRequest) (code : Z) (waiting : StepId)
  (r1 : StepRequest) :
  0 <= NBS_WINDOW_SIZE < 2 ^ 64 ->
  0 <= stepsCount (authoritativeSteps (foundGame r)) < 2 ^ 64 ->
  nimbleServerHandleIncomingSteps
    (withGame (snd (discardAuthoritativeStepsIfBufferGettingFull (foundGame r))) r) =
    (code, waiting, r1) ->
  code < 0 ->
  nimbleServerReqGameStep r = Some (code, r1).
Proof.
  intros Hw Hc Hingest Hcode.
  unfold nimbleServerReqGameStep, readIncomingStepsAndCreateAuthoritativeSteps.
  rewrite (discard_result _ Hw Hc) in *. cbn [snd] in Hingest.
  change (0 <? 0) with false. cbv iota.
  unfold ingestAndCompose. rewrite Hingest.
  assert (E : (code <? 0) = true) by (apply Z.ltb_lt; exact Hcode).
  rewrite E. unfold answerGameStep. rewrite E. reflexivity.
Qed.

(** X4.  A frozen game is not composed: after a good ingest on a game with
    [debugIsFrozen] set, reading the steps answers 0 advanced steps and
    leaves the request, its game and its statistics as the ingest left
    them. *)
Theorem frozen_game_is_not_composed (r : StepRequest) (receivedCount : Z)
  (waiting : StepId) (r1 : StepRequest) :
  0 <= NBS_WINDOW_SIZE < 2 ^ 64 ->
  0 <= stepsCount (authoritativeSteps (foundGame r)) < 2 ^ 64 ->
  nimbleServerHandleIncomingSteps
    (withGame (snd (discardAuthoritativeStepsIfBufferGettingFull (foundGame r))) r) =
    (receivedCount, waiting, r1) ->
  0 <= receivedCount ->
  debugIsFrozen (foundGame r1) = true ->
  readIncomingStepsAndCreateAuthoritativeSteps r = (0, Some waiting, r1).
Proof.
  intros Hw Hc Hingest Hcount Hfrozen.
  unfold readIncomingStepsAndCreateAuthoritativeSteps.
  rewrite (discard_result _ Hw Hc) in *. cbn [snd] in Hingest.
  change (0 <? 0) with false. cbv iota.
  unfold ingestAndCompose. rewrite Hingest.
  assert (E : (receivedCount <? 0) = false) by (apply Z.ltb_ge; exact Hcount).
  rewrite E, Hfrozen. reflexivity.
Qed.

(** X5.  A compose pass that fails ends the request with its code: the
    per-second statistics are not added to and no step range is written; the
    game is the one the failed pass left. *)
Theorem compose_error_ends_request (r : StepRequest) (receivedCount : Z)
  (waiting : StepId) (r1 : StepRequest) (code : Z) (g2 : NimbleServerGame) :
  0 <= NBS_WINDOW_SIZE < 2 ^ 64 ->
  0 <= stepsCount (authoritativeSteps (foundGame r)) < 2 ^ 64 ->
  nimbleServerHandleIncomingSteps
    (withGame (snd (discardAuthoritativeStepsIfBufferGettingFull (foundGame r))) r) =
    (receivedCount, waiting, r1) ->
  0 <= receivedCount ->
  debugIsFrozen (foundGame r1) = false ->
  nimbleServerComposeAuthoritativeSteps (foundGame r1) = (code, g2) ->
  code < 0 ->
  nimbleServerReqGameStep r = Some (code, withGame g2 r1) /\
  reqStat (withGame g2 r1) = reqStat r1 /\
  reqOutStream (withGame g2 r1) = reqOutStream r1.
Proof.
  intros Hw Hc Hingest Hcount Hfrozen Hcompose Hcode.
  split; [| split; reflexivity].
  unfold nimbleServerReqGameStep, readIncomingStepsAndCreateAuthoritativeSteps.
  rewrite (discard_result _ Hw Hc) in *. cbn [snd] in Hingest.
  change (0 <? 0) with false. cbv iota.
  unfold ingestAndCompose. rewrite Hingest.
  assert (E : (receivedCount <? 0) = false) by (apply Z.ltb_ge; exact Hcount).
  assert (E' : (code <? 0) = true) by (apply Z.ltb_lt; exact Hcode).
  rewrite E, Hfrozen. cbn [negb]. rewrite Hcompose, E'.
  unfold answerGameStep. rewrite E'. reflexivity.
Qed.

End TrimFacts.

Lemma trim_twice_is_trim_once_witness :
  let trimmed := snd (discardAuthoritativeStepsIfBufferGettingFull (gameAt 16 56 40 16)) in
  discardAuthoritativeStepsIfBufferGettingFull trimmed = (0, trimmed).
Proof.
  apply (trim_twice_is_trim_once (collaborators := modelStepCollaborators)
           (gameAt 16 56 40 16)); simpl; lia.
Defined.

Lemma trim_keeps_ring_consistent_witness :
  let ring := authoritativeSteps (gameAt 16 56 40 16) in
  let ring' :=
    authoritativeSteps (snd (discardAuthoritativeStepsIfBufferGettingFull (gameAt 16 56 40 16))) in
  expectedWriteId ring' = expectedWriteId ring /\
  stepsCount ring' = Z.min (stepsCount ring) (Z.quot 90 3) /\
  (uint32 (expectedReadId ring + stepsCount ring) = expectedWriteId ring ->
   uint32 (expectedReadId ring' + stepsCount ring') = expectedWriteId ring').
Proof.
  apply (trim_keeps_ring_consistent (collaborators := modelStepCollaborators)
           (gameAt 16 56 40 16)); simpl; lia.
Defined.

Lemma ingest_error_ends_request_witness :
  nimbleServerReqGameStep (collaborators := failingIngest) (stepRequestOn (gameAt 16 56 40 16)) =
    Some (-7,
          withGame
            (snd (discardAuthoritativeStepsIfBufferGettingFull (collaborators := failingIngest)
                    (gameAt 16 56 40 16)))
            (stepRequestOn (gameAt 16 56 40 16))).
Proof.
  apply (ingest_error_ends_request (collaborators := failingIngest)
           (stepRequestOn (gameAt 16 56 40 16)) (-7) 0);
    [simpl; lia | simpl; lia | reflexivity | lia].
Defined.

Lemma frozen_game_is_not_composed_witness :
  readIncomingStepsAndCreateAuthoritativeSteps (collaborators := failingCompose)
    (stepRequestOn frozenGame) =
    (0, Some 56,
     withGame
       (snd (discardAuthoritativeStepsIfBufferGettingFull (collaborators := failingCompose)
               frozenGame))
       (stepRequestOn frozenGame)).
Proof.
  apply (frozen_game_is_not_composed (collaborators := failingCompose)
           (stepRequestOn frozenGame) 1 56);
    [simpl; lia | simpl; lia | reflexivity | lia | reflexivity].
Defined.

Lemma compose_error_ends_request_witness :
  let r1 :=
    withGame
      (snd (discardAuthoritativeStepsIfBufferGettingFull (collaborators := failingCompose)
              (gameAt 16 56 40 16)))
      (stepRequestOn (gameAt 16 56 40 16)) in
  nimbleServerReqGameStep (collaborators := failingCompose) (stepRequestOn (gameAt 16 56 40 16)) =
    Some (-9, withGame (foundGame r1) r1) /\
  reqStat (withGame (foundGame r1) r1) = reqStat r1 /\
  reqOutStream (withGame (foundGame r1) r1) = reqOutStream r1.
Proof.
  apply (compose_error_ends_request (collaborators := failingCompose)
           (stepRequestOn (gameAt 16 56 40 16)) 1 56);
    [simpl; lia | simpl; lia | reflexivity | lia | reflexivity | reflexivity | lia].
Defined.

(** ** server.c: the life of a slot *)

Lemma resetSlots_lookup (count first j : nat) (tcs : list NimbleServerTransportConnection) :
  (first <= j < first + count)%nat ->
  resetSlots count first tcs !! j = resetSlot (Z.of_nat j) <$> tcs !! j.
Proof.
  revert first tcs. induction count as [| count IH]; intros first tcs Hj; [lia |].
  simpl. destruct (decide (j = first)) as [-> | Hne].
  - rewrite resetSlots_before by lia. apply list_lookup_alter_eq.
  - rewrite IH by lia. rewrite list_lookup_alter_ne by lia. reflexivity.
Qed.

Section SlotLife.
Context {collaborators : ServerCollaborators}.

(** What a successful [nimbleServerInit] leaves, field by field. *)
Lemma init_success (self : NimbleServer) (setup_ : NimbleServerSetup) (self' : NimbleServer) :
  nimbleServerInit self setup_ = (0, self') ->
  transportConnections self' =
    resetSlots (Z.to_nat NBD_SERVER_MAX_TRANSPORT_CONNECTIONS) 0 (transportConnections self) /\
  blobAllocator self' = setupBlobAllocator setup_ /\
  log self' = setupLog setup_ /\
  game self' = game self.
Proof.
  unfold nimbleServerInit.
  destruct (maxConnectionCount setup_ >? _);
    [intros H; apply (f_equal fst) in H; discriminate |].
  destruct (maxSingleParticipantStepOctetCount setup_ >? _);
    [intros H; apply (f_equal fst) in H; discriminate |].
  destruct (maxParticipantCount setup_ >? _);
    [intros H; apply (f_equal fst) in H; discriminate |].
  intros H. apply (f_equal snd) in H. cbn [snd] in H. subst self'.
  repeat split.
Qed.

(** X6.  A successful [nimbleServerInit] resets every one of the 64 slots,
    whatever state they were in: the slot is no longer in use, points at no
    participant connection and carries its index as id.  The rest of the
    slot, its phase and its ordered-datagram state among it, is not
    touched. *)
Theorem init_resets_every_slot (self : NimbleServer) (setup_ : NimbleServerSetup)
  (self' : NimbleServer) (j : nat) (tc : NimbleServerTransportConnection) :
  length (transportConnections self) = Z.to_nat NBD_SERVER_MAX_TRANSPORT_CONNECTIONS ->
  nimbleServerInit self setup_ = (0, self') ->
  transportConnections self !! j = Some tc ->
  exists tc',
    transportConnections self' !! j = Some tc' /\
    tcIsUsed tc' = false /\
    assignedParticipantConnection tc' = None /\
    tcTransportConnectionId tc' = Z.of_nat j /\
    phase tc' = phase tc /\
    nextAuthoritativeStepIdToSend tc' = nextAuthoritativeStepIdToSend tc /\
    orderedDatagramInLogic tc' = orderedDatagramInLogic tc /\
    orderedDatagramOutLogic tc' = orderedDatagramOutLogic tc.
Proof.
  intros Hlen Hinit Htc. destruct (init_success _ _ _ Hinit) as (Htcs & _).
  exists (resetSlot (Z.of_nat j) tc). split; [| repeat split].
  rewrite Htcs, resetSlots_lookup, Htc; [reflexivity |].
  apply lookup_lt_Some in Htc. rewrite Hlen in Htc. lia.
Qed.

(** X7.  Right after a successful [nimbleServerInit], every slot below 64
    connects: [nimbleServerConnectionConnected] answers 0, and the slot is in
    use with its index as id, no participant connection, and the blob
    allocator and log of the setup. *)
Theorem every_slot_connects_after_init (self : NimbleServer) (setup_ : NimbleServerSetup)
  (self' : NimbleServer) (connectionIndex : Z) :
  length (transportConnections self) = Z.to_nat NBD_SERVER_MAX_TRANSPORT_CONNECTIONS ->
  nimbleServerInit self setup_ = (0, self') ->
  0 <= connectionIndex < 64 ->
  exists self'' tc,
    nimbleServerConnectionConnected self' connectionIndex = Some (0, self'') /\
    transportConnections self'' !! Z.to_nat connectionIndex = Some tc /\
    tcIsUsed tc = true /\
    tcTransportConnectionId tc = connectionIndex /\
    assignedParticipantConnection tc = None /\
    blobStreamOutAllocator tc = setupBlobAllocator setup_ /\
    tcLog tc = setupLog setup_.
Proof.
  intros Hlen Hinit Hi. destruct (init_success _ _ _ Hinit) as (Htcs & Hblob & Hlog & _).
  destruct (lookup_lt_is_Some_2 (transportConnections self) (Z.to_nat connectionIndex))
    as [tc0 Htc0]; [rewrite Hlen; unfold NBD_SERVER_MAX_TRANSPORT_CONNECTIONS; lia |].
  assert (Hslot : transportConnections self' !! Z.to_nat connectionIndex =
                  Some (resetSlot connectionIndex tc0)).
  { rewrite Htcs, resetSlots_lookup, Htc0; [simpl; rewrite Z2Nat.id by lia; reflexivity |].
    unfold NBD_SERVER_MAX_TRANSPORT_CONNECTIONS. lia. }
  unfold nimbleServerConnectionConnected.
  rewrite uint8_small by lia. rewrite arrayAt_nonneg by lia. rewrite Hslot. simpl.
  eexists. eexists. split; [reflexivity |].
  unfold storeTransportConnection. cbn [transportConnections withTransportConnections].
  split; [apply list_lookup_insert_eq; apply lookup_lt_Some in Hslot; exact Hslot |].
  simpl. rewrite Hblob, Hlog. repeat split.
Qed.

(** X8.  Whatever [nimbleServerConnectionConnected] answered on a slot, the
    slot is in use afterwards: the same call again answers -44 and changes
    nothing. *)
Theorem connect_again_is_refused (self : NimbleServer) (connectionIndex : Z) (result : Z)
  (self' : NimbleServer) :
  nimbleServerConnectionConnected self connectionIndex = Some (result, self') ->
  nimbleServerConnectionConnected self' connectionIndex = Some (-44, self').
Proof.
  unfold nimbleServerConnectionConnected. set (idx := uint8 connectionIndex).
  destruct (arrayAt (transportConnections self) idx) as [tc |] eqn:Htc; simpl; [| discriminate].
  destruct (tcIsUsed tc) eqn:Hused; intros H; injection H as _ <-.
  - rewrite Htc. simpl. rewrite Hused. reflexivity.
  - rewrite (arrayAt_store self idx tc _ Htc). reflexivity.
Qed.

(** X9.  A disconnect does not free the transport slot: after
    [nimbleServerConnectionDisconnected] on a slot in use, with whatever
    answer, [nimbleServerConnectionConnected] on that slot answers -44. *)
Theorem disconnected_slot_stays_in_use (self : NimbleServer) (connectionIndex : Z)
  (result : Z) (self' : NimbleServer) (tc : NimbleServerTransportConnection) :
  0 <= connectionIndex < 256 ->
  transportConnections self !! Z.to_nat connectionIndex = Some tc ->
  tcIsUsed tc = true ->
  nimbleServerConnectionDisconnected self connectionIndex = Some (result, self') ->
  nimbleServerConnectionConnected self' connectionIndex = Some (-44, self').
Proof.
  intros Hi Htc Hused Hdisconnected.
  pose proof (disconnected_keeps_usedFlags _ _ _ _ Hdisconnected) as Hflags.
  assert (Hflag : usedFlags self' !! Z.to_nat connectionIndex = Some true).
  { rewrite Hflags. unfold usedFlags. rewrite list_lookup_fmap, Htc. simpl.
    rewrite Hused. reflexivity. }
  unfold usedFlags in Hflag. rewrite list_lookup_fmap in Hflag.
  destruct (transportConnections self' !! Z.to_nat connectionIndex) as [tc' |] eqn:Htc';
    simpl in Hflag; [| discriminate].
  injection Hflag as Hused'.
  unfold nimbleServerConnectionConnected.
  rewrite uint8_small by lia. rewrite arrayAt_nonneg by lia. rewrite Htc'. simpl.
  rewrite Hused'. reflexivity.
Qed.

(** X10.  A second disconnect finds the connection freed: after
    [nimbleServerConnectionDisconnected] answered 0, the same call answers -4
    and changes nothing, as long as the lookup finds the same pool entry for
    the connection index. *)
Theorem disconnect_again_is_refused (self : NimbleServer) (connectionIndex : Z)
  (self' : NimbleServer) :
  nimbleServerConnectionDisconnected self connectionIndex = Some (0, self') ->
  nbdParticipantConnectionsFindConnection (serverConnections self') (uint8 connectionIndex) =
    nbdParticipantConnectionsFindConnection (serverConnections self) (uint8 connectionIndex) ->
  nimbleServerConnectionDisconnected self' connectionIndex = Some (-4, self').
Proof.
  unfold nimbleServerConnectionDisconnected. set (idx := uint8 connectionIndex).
  intros Hfirst Hfind. rewrite Hfind.
  destruct (nbdParticipantConnectionsFindConnection (serverConnections self) idx) as [k |];
    [| discriminate].
  destruct (connections (serverConnections self) !! k) as [pc |] eqn:Hpc; simpl in Hfirst;
    [| discriminate].
  destruct (pcIsUsed pc); simpl in Hfirst; [| discriminate].
  destruct (arrayAt _ idx) as [tc |]; simpl in Hfirst; [| discriminate].
  injection Hfirst as <-.
  unfold storeTransportConnection.
  cbn [serverConnections withTransportConnections withServerConnections connections
       withConnections].
  rewrite list_lookup_insert_eq by (apply lookup_lt_Some in Hpc; exact Hpc).
  reflexivity.
Qed.

End SlotLife.

Lemma memory_init : nimbleServerInit memory (sampleSetup 1 4 1) = (0, freshServer).
Proof. vm_compute. reflexivity. Qed.

Lemma joined_init :
  nimbleServerInit joinedServer (sampleSetup 1 4 1) =
    (0, snd (nimbleServerInit joinedServer (sampleSetup 1 4 1))).
Proof. vm_compute. reflexivity. Qed.

(** Slot 0 of the joined server is in use; a new init resets it. *)
Lemma init_resets_every_slot_witness :
  exists tc',
    transportConnections (snd (nimbleServerInit joinedServer (sampleSetup 1 4 1))) !! O =
      Some tc' /\
    tcIsUsed tc' = false /\
    assignedParticipantConnection tc' = None /\
    tcTransportConnectionId tc' = Z.of_nat 0 /\
    phase tc' = phase (default blankTransportConnection (transportConnections joinedServer !! O)) /\
    nextAuthoritativeStepIdToSend tc' =
      nextAuthoritativeStepIdToSend
        (default blankTransportConnection (transportConnections joinedServer !! O)) /\
    orderedDatagramInLogic tc' =
      orderedDatagramInLogic
        (default blankTransportConnection (transportConnections joinedServer !! O)) /\
    orderedDatagramOutLogic tc' =
      orderedDatagramOutLogic
        (default blankTransportConnection (transportConnections joinedServer !! O)).
Proof.
  apply (init_resets_every_slot (collaborators := modelCollaborators) joinedServer
           (sampleSetup 1 4 1) _ O
           (default blankTransportConnection (transportConnections joinedServer !! O)));
    [vm_compute; reflexivity | exact joined_init | vm_compute; reflexivity].
Defined.

Lemma every_slot_connects_after_init_witness :
  exists self'' tc,
    nimbleServerConnectionConnected freshServer 5 = Some (0, self'') /\
    transportConnections self'' !! Z.to_nat 5 = Some tc /\
    tcIsUsed tc = true /\
    tcTransportConnectionId tc = 5 /\
    assignedParticipantConnection tc = None /\
    blobStreamOutAllocator tc = setupBlobAllocator (sampleSetup 1 4 1) /\
    tcLog tc = setupLog (sampleSetup 1 4 1).
Proof.
  apply (every_slot_connects_after_init (collaborators := modelCollaborators) memory
           (sampleSetup 1 4 1) freshServer 5);
    [reflexivity | exact memory_init | lia].
Defined.

Lemma connect_again_is_refused_witness :
  nimbleServerConnectionConnected connectedOnce 0 = Some (-44, connectedOnce).
Proof.
  apply (connect_again_is_refused (collaborators := modelCollaborators) memory 0 0).
  vm_compute. reflexivity.
Defined.

Lemma disconnected_slot_stays_in_use_witness :
  nimbleServerConnectionConnected disconnectedServer 0 = Some (-44, disconnectedServer).
Proof.
  apply (disconnected_slot_stays_in_use (collaborators := modelCollaborators) joinedServer 0 0
           disconnectedServer
           (default blankTransportConnection (transportConnections joinedServer !! O)));
    [lia | vm_compute; reflexivity | vm_compute; reflexivity | vm_compute; reflexivity].
Defined.

Lemma disconnect_again_is_refused_witness :
  nimbleServerConnectionDisconnected disconnectedServer 0 = Some (-4, disconnectedServer).
Proof.
  apply (disconnect_again_is_refused (collaborators := modelCollaborators) joinedServer 0);
    vm_compute; reflexivity.
Defined.

(** ** server.c: what a feed answers and sends *)

Section FeedFacts.
Context {collaborators : ServerCollaborators}.

(** X11.  The error of a request handler is the answer of the feed: when the
    handler of a GameStep, JoinGameRequest or DownloadGameStateRequest
    answers a negative code, [nimbleServerFeed] returns that code, sends
    nothing and leaves the server as the handler left it, the outgoing
    ordered-datagram state prepared and not committed. *)
Theorem handler_error_is_returned (self : NimbleServer) (connectionIndex : Z)
  (data : list Z) (len : Z) (response : Send) (tc : NimbleServerTransportConnection)
  (r0 r1 cmd result : Z) (inLogic : OrderedDatagramInLogic)
  (outLogic : OrderedDatagramOutLogic) (in1 in2 in3 : FldInStream)
  (out1 out3 : FldOutStream) (handler : Handler) (self3 : NimbleServer) :
  0 <= connectionIndex < 64 ->
  transportConnections self !! Z.to_nat connectionIndex = Some tc ->
  orderedDatagramInLogicReceive (orderedDatagramInLogic tc) (fldInStreamInit data len) =
    (r0, inLogic, in1) ->
  fldInStreamReadUInt8 in1 = (Some cmd, in2) ->
  cmd <> NimbleSerializeCmdDownloadGameStateStatus ->
  handlerOf cmd = Some handler ->
  orderedDatagramOutLogicPrepare (orderedDatagramOutLogic tc) (fldOutStreamInit UDP_MAX_SIZE) =
    (r1, outLogic, out1) ->
  handler
    (storeTransportConnection connectionIndex (withOutLogic outLogic (withInLogic inLogic tc))
       (storeTransportConnection connectionIndex (withInLogic inLogic tc) self))
    connectionIndex in2 out1 = (result, self3, in3, out3) ->
  result < 0 ->
  nimbleServerFeed self connectionIndex data len response = Some (result, self3, []).
Proof.
  intros Hi Htc Hreceive Hread Hstatus Hhandler Hprepare Hrun Hresult.
  unfold nimbleServerFeed. rewrite uint8_small by lia.
  destruct (connectionIndex >? 64) eqn:E; [apply Z.gtb_lt in E; lia |].
  rewrite arrayAt_nonneg by lia. rewrite Htc. simpl.
  rewrite Hreceive, Hread. simpl.
  destruct (cmd =? NimbleSerializeCmdDownloadGameStateStatus) eqn:Es;
    [apply Z.eqb_eq in Es; contradiction |].
  rewrite Hprepare, Hhandler, Hrun.
  destruct (result <? 0) eqn:Er; [reflexivity | apply Z.ltb_ge in Er; lia].
Qed.

(** X12.  One reply at most: for a datagram other than a
    DownloadGameStateStatus, [nimbleServerFeed] hands at most one datagram to
    [send].  When it sends none, its answer is 0 or negative; when it sends
    one, its answer is what [send] returned for it. *)
Theorem feed_sends_one_reply_at_most (self : NimbleServer) (connectionIndex : Z)
  (data : list Z) (len : Z) (response : Send) (result : Z) (self' : NimbleServer)
  (sent : list (list Z)) :
  (forall tc,
     arrayAt (transportConnections self) (uint8 connectionIndex) = Some tc ->
     commandOf (orderedDatagramInLogic tc) data len <>
       Some NimbleSerializeCmdDownloadGameStateStatus) ->
  nimbleServerFeed self connectionIndex data len response = Some (result, self', sent) ->
  (sent = [] /\ result <= 0) \/
  (exists reply, sent = [reply] /\ result = response reply).
Proof.
  intros Hstatus. unfold nimbleServerFeed. set (idx := uint8 connectionIndex) in *.
  destruct (idx >? 64); [intros H; injection H as <- _ <-; left; split; [reflexivity | lia] |].
  destruct (arrayAt (transportConnections self) idx) as [tc |] eqn:Htc; simpl; [| discriminate].
  specialize (Hstatus tc eq_refl). unfold commandOf in Hstatus.
  destruct (orderedDatagramInLogicReceive _ _) as [[r0 inLogic] in1].
  destruct (fldInStreamReadUInt8 in1) as [[cmd |] in2]; simpl; [| discriminate].
  simpl in Hstatus.
  destruct (cmd =? NimbleSerializeCmdDownloadGameStateStatus) eqn:Es;
    [apply Z.eqb_eq in Es; subst cmd; contradiction |].
  destruct (orderedDatagramOutLogicPrepare _ _) as [[r1 outLogic] out1].
  destruct (handlerOf cmd) as [handler |];
    [| intros H; injection H as <- _ <-; left; split; [reflexivity | lia]].
  destruct (handler _ _ _ _) as [[[result0 self0] in3] out3].
  destruct (result0 <? 0) eqn:Er;
    [intros H; injection H as <- _ <-; apply Z.ltb_lt in Er; left; split; [reflexivity | lia] |].
  destruct (outPos out3 <=? 2);
    [intros H; injection H as <- _ <-; left; split; [reflexivity | lia] |].
  destruct (arrayAt (transportConnections self0) idx) as [tc0 |]; simpl; [| discriminate].
  intros H. injection H as <- _ <-. right. eexists. split; reflexivity.
Qed.

End FeedFacts.

(** The pool of the joined server is full: a second join is refused. *)
Lemma handler_error_is_returned_witness :
  exists self3,
    nimbleServerFeed joinedServer 0 joinAgain 3 (fun _ => 0) = Some (-1, self3, []).
Proof.
  eexists.
  eapply (handler_error_is_returned (collaborators := modelCollaborators) joinedServer 0
            joinAgain 3 (fun _ => 0)
            (default blankTransportConnection (transportConnections joinedServer !! O)));
    [lia | vm_compute; reflexivity | vm_compute; reflexivity | vm_compute; reflexivity
     | vm_compute; discriminate | vm_compute; reflexivity | vm_compute; reflexivity
     | vm_compute; reflexivity | lia].
Defined.

Lemma feed_sends_one_reply_at_most_witness :
  let answer :=
    default (0, freshServer, [])
            (nimbleServerFeed freshServer 0 joinAgain 3 (fun d => Z.of_nat (length d))) in
  (snd answer = [] /\ fst (fst answer) <= 0) \/
  (exists reply, snd answer = [reply] /\ fst (fst answer) = Z.of_nat (length reply)).
Proof.
  intros answer.
  apply (feed_sends_one_reply_at_most (collaborators := modelCollaborators) freshServer 0
           joinAgain 3 (fun d => Z.of_nat (length d))
           (fst (fst answer)) (snd (fst answer)) (snd answer)).
  - intros tc Htc. vm_compute. discriminate.
  - vm_compute. reflexivity.
Defined.

(** ** server.c: the drain loop and the update *)

Section DrainFacts.
Context {collaborators : ServerCollaborators}.

(** X13.  One drain handles at most 32 datagrams, in the order they came:
    the server after [nimbleServerReadFromMultiTransport] is the server after
    the first [k] of the datagrams, one call each, for some [k] up to 32. *)
Theorem drain_takes_32_at_most
  (track : Call -> NimbleServer -> Z -> SlotFlags -> SlotFlags)
  (self : NimbleServer) (incoming : list Received) (result : Z)
  (self' : NimbleServer) (sent : list (Z * list Z)) (flags : SlotFlags) :
  nimbleServerReadFromMultiTransport self incoming = Some (result, self', sent) ->
  exists k flags',
    (k <= 32)%nat /\ (k <= length incoming)%nat /\
    run track (CallDatagram (multiTransport self) <$> take k incoming) self flags =
      Some (self', flags').
Proof.
  unfold nimbleServerReadFromMultiTransport.
  generalize (multiTransport self) as mt. generalize 32%nat as turns. intros turns mt.
  revert self incoming result sent flags.
  induction turns as [| turns IH]; intros self incoming result sent flags; simpl.
  - intros H. injection H as _ <- _. exists O, flags. repeat split; lia.
  - destruct incoming as [| r incoming].
    + intros H. injection H as _ <- _. exists O, flags. repeat split; lia.
    + destruct (octetCountReceived r =? 0);
        [intros H; injection H as _ <- _; exists O, flags; repeat split; lia |].
      destruct (octetCountReceived r <? 0);
        [intros H; injection H as _ <- _; exists O, flags; repeat split; lia |].
      destruct (datagramReceived self mt r) as [[[errorCode self1] sent1] |] eqn:Hd; simpl;
        [| discriminate].
      destruct (errorCode <? 0).
      * intros H. injection H as _ <- _. exists 1%nat. eexists.
        split; [lia |]. split; [simpl; lia |]. simpl. rewrite Hd. reflexivity.
      * destruct (receiveLoop turns self1 mt incoming) as [[[result2 self2] sent2] |] eqn:Hl;
          simpl; [| discriminate].
        intros H. injection H as _ <- _.
        destruct (IH _ _ _ _ (track (CallDatagram mt r) self errorCode flags) Hl)
          as (k & flags' & Hk1 & Hk2 & Hk).
        exists (S k), flags'. split; [lia |]. split; [simpl; lia |].
        simpl. rewrite Hd. simpl. exact Hk.
Qed.

(** X14.  The drain never answers a positive number: the octet counts that
    [receiveFrom] and [send] return do not come back to the caller, only 0,
    a negative receive code or the negative code of a feed. *)
Theorem drain_result_is_never_positive (self : NimbleServer) (incoming : list Received)
  (result : Z) (self' : NimbleServer) (sent : list (Z * list Z)) :
  nimbleServerReadFromMultiTransport self incoming = Some (result, self', sent) ->
  result <= 0.
Proof.
  unfold nimbleServerReadFromMultiTransport.
  generalize (multiTransport self) as mt. generalize 32%nat as turns. intros turns mt.
  revert self incoming result sent self'.
  induction turns as [| turns IH]; intros self incoming result sent self'; simpl.
  - intros H. injection H as <- _ _. lia.
  - destruct incoming as [| r incoming]; [intros H; injection H as <- _ _; lia |].
    destruct (octetCountReceived r =? 0); [intros H; injection H as <- _ _; lia |].
    destruct (octetCountReceived r <? 0) eqn:E;
      [intros H; injection H as <- _ _; apply Z.ltb_lt in E; lia |].
    destruct (datagramReceived self mt r) as [[[errorCode self1] sent1] |]; simpl;
      [| discriminate].
    destruct (errorCode <? 0) eqn:Ee;
      [intros H; injection H as <- _ _; apply Z.ltb_lt in Ee; lia |].
    destruct (receiveLoop turns self1 mt incoming) as [[[result2 self2] sent2] |] eqn:Hl;
      simpl; [| discriminate].
    intros H. injection H as <- _ _. apply (IH _ _ _ _ _ Hl).
Qed.

End DrainFacts.

(** The drain of one JoinGame request on the fresh server. *)
Lemma drain_takes_32_at_most_witness :
  let answer :=
    default (0, freshServer, [])
            (nimbleServerReadFromMultiTransport freshServer [joinDatagram]) in
  exists k flags',
    (k <= 32)%nat /\ (k <= length [joinDatagram])%nat /\
    run connectedSinceInit
        (CallDatagram (multiTransport freshServer) <$> take k [joinDatagram])
        freshServer noSlot = Some (snd (fst answer), flags').
Proof.
  intros answer.
  apply (drain_takes_32_at_most (collaborators := modelCollaborators) connectedSinceInit
           freshServer [joinDatagram] (fst (fst answer)) (snd (fst answer)) (snd answer) noSlot).
  vm_compute. reflexivity.
Defined.

Lemma drain_result_is_never_positive_witness :
  fst (fst (default (1, freshServer, [])
                    (nimbleServerReadFromMultiTransport freshServer [joinDatagram]))) <= 0.
Proof.
  apply (drain_result_is_never_positive (collaborators := modelCollaborators) freshServer
           [joinDatagram] _ joinedServer [(0, [0; 0; 1; 1; 1])]).
  vm_compute. reflexivity.
Defined.

Section ArrivalFacts.
Context {collaborators : ServerCollaborators}.
Hypothesis handlers : HandlersKeepIsUsed.

Lemma datagramReceived_usedFlags (self : NimbleServer) (mt : Z) (r : Received)
  (errorCode : Z) (self' : NimbleServer) (sent : list (Z * list Z)) :
  length (transportConnections self) = Z.to_nat NBD_SERVER_MAX_TRANSPORT_CONNECTIONS ->
  datagramReceived self mt r = Some (errorCode, self', sent) ->
  usedFlags self' = <[Z.to_nat (connectionId r) := true]> (usedFlags self).
Proof.
  intros Hlen. unfold datagramReceived.
  destruct (arrayAt (transportConnections self) (connectionId r)) as [tc |] eqn:Htc; simpl;
    [| discriminate].
  destruct (arrayAt_Some _ _ _ Htc) as [Hr Hl].
  rewrite Hlen in Hr. unfold NBD_SERVER_MAX_TRANSPORT_CONNECTIONS in Hr.
  destruct (tcIsUsed tc) eqn:Hused; simpl.
  - destruct (nimbleServerFeed self _ _ _ _) as [[[code self1] sent1] |] eqn:Hfeed; simpl;
      [| discriminate].
    intros H. injection H as _ <- _.
    rewrite (feed_keeps_usedFlags _ _ _ _ _ _ _ _ handlers Hfeed).
    symmetry. apply list_insert_id. unfold usedFlags.
    rewrite list_lookup_fmap, Hl. simpl. rewrite Hused. reflexivity.
  - destruct (nimbleServerConnectionConnected self (connectionId r)) as [[code0 self0] |]
      eqn:Hconnected; simpl; [| discriminate].
    destruct (nimbleServerFeed self0 _ _ _ _) as [[[code self1] sent1] |] eqn:Hfeed; simpl;
      [| discriminate].
    intros H. injection H as _ <- _.
    rewrite (feed_keeps_usedFlags _ _ _ _ _ _ _ _ handlers Hfeed).
    unfold nimbleServerConnectionConnected in Hconnected.
    rewrite uint8_small in Hconnected by lia. rewrite Htc in Hconnected. simpl in Hconnected.
    rewrite Hused in Hconnected. injection Hconnected as _ <-.
    apply usedFlags_store.
Qed.

(** X16.  A datagram that arrives through the multitransport leaves its slot
    in use, connected by the drain if it was not, and the [isUsed] flag of
    every other slot as it was.  The request handlers are taken to leave the
    flag alone. *)
Theorem arriving_datagram_connects_slot (self : NimbleServer) (mt : Z) (r : Received)
  (errorCode : Z) (self' : NimbleServer) (sent : list (Z * list Z)) :
  length (transportConnections self) = Z.to_nat NBD_SERVER_MAX_TRANSPORT_CONNECTIONS ->
  datagramReceived self mt r = Some (errorCode, self', sent) ->
  (exists tc', arrayAt (transportConnections self') (connectionId r) = Some tc' /\
               tcIsUsed tc' = true) /\
  (forall j, j <> Z.to_nat (connectionId r) -> usedFlags self' !! j = usedFlags self !! j).
Proof.
  intros Hlen Hd. pose proof (datagramReceived_usedFlags _ _ _ _ _ _ Hlen Hd) as Hflags.
  assert (Hslot : is_Some (arrayAt (transportConnections self) (connectionId r))).
  { unfold datagramReceived in Hd.
    destruct (arrayAt (transportConnections self) (connectionId r)); [eexists; reflexivity |].
    discriminate. }
  destruct Hslot as [tc Htc]. destruct (arrayAt_Some _ _ _ Htc) as [Hr Hl].
  split.
  - assert (Hflag : usedFlags self' !! Z.to_nat (connectionId r) = Some true).
    { rewrite Hflags. apply list_lookup_insert_eq. unfold usedFlags. rewrite length_fmap.
      apply lookup_lt_Some in Hl. exact Hl. }
    unfold usedFlags in Hflag. rewrite list_lookup_fmap in Hflag.
    destruct (transportConnections self' !! Z.to_nat (connectionId r)) as [tc' |] eqn:Htc';
      simpl in Hflag; [| discriminate].
    exists tc'. rewrite arrayAt_nonneg by lia. split; [exact Htc' | congruence].
  - intros j Hj. rewrite Hflags. apply list_lookup_insert_ne. congruence.
Qed.

(** X17.  A datagram handed to [nimbleServerFeed] itself does not connect the
    slot: fed on a slot that is not in use, it is handled and the slot is
    still not in use afterwards.  The request handlers are taken to leave
    the flag alone. *)
Theorem direct_feed_does_not_connect (self : NimbleServer) (connectionIndex : Z)
  (data : list Z) (len : Z) (response : Send) (tc : NimbleServerTransportConnection)
  (result : Z) (self' : NimbleServer) (sent : list (list Z)) :
  transportConnections self !! Z.to_nat connectionIndex = Some tc ->
  tcIsUsed tc = false ->
  nimbleServerFeed self connectionIndex data len response = Some (result, self', sent) ->
  exists tc', transportConnections self' !! Z.to_nat connectionIndex = Some tc' /\
              tcIsUsed tc' = false.
Proof.
  intros Htc Hused Hfeed.
  pose proof (feed_keeps_usedFlags _ _ _ _ _ _ _ _ handlers Hfeed) as Hflags.
  assert (Hflag : usedFlags self' !! Z.to_nat connectionIndex = Some false).
  { rewrite Hflags. unfold usedFlags. rewrite list_lookup_fmap, Htc. simpl.
    rewrite Hused. reflexivity. }
  unfold usedFlags in Hflag. rewrite list_lookup_fmap in Hflag.
  destruct (transportConnections self' !! Z.to_nat connectionIndex) as [tc' |];
    simpl in Hflag; [| discriminate].
  exists tc'. split; [reflexivity | congruence].
Qed.

Lemma receiveLoop_usedFlags (turns : nat) (self : NimbleServer) (mt : Z)
  (incoming : list Received) (result : Z) (self' : NimbleServer) (sent : list (Z * list Z)) :
  length (transportConnections self) = Z.to_nat NBD_SERVER_MAX_TRANSPORT_CONNECTIONS ->
  receiveLoop turns self mt incoming = Some (result, self', sent) ->
  length (transportConnections self') = Z.to_nat NBD_SERVER_MAX_TRANSPORT_CONNECTIONS /\
  forall j, usedFlags self !! j = Some true -> usedFlags self' !! j = Some true.
Proof.
  revert self incoming result sent self'.
  induction turns as [| turns IH]; intros self incoming result sent self' Hlen; simpl.
  - intros H. injection H as _ <- _. split; [exact Hlen | tauto].
  - destruct incoming as [| r incoming];
      [intros H; injection H as _ <- _; split; [exact Hlen | tauto] |].
    destruct (octetCountReceived r =? 0);
      [intros H; injection H as _ <- _; split; [exact Hlen | tauto] |].
    destruct (octetCountReceived r <? 0);
      [intros H; injection H as _ <- _; split; [exact Hlen | tauto] |].
    destruct (datagramReceived self mt r) as [[[errorCode self1] sent1] |] eqn:Hd; simpl;
      [| discriminate].
    pose proof (datagramReceived_usedFlags _ _ _ _ _ _ Hlen Hd) as Hflags.
    assert (Hlen1 : length (transportConnections self1) =
                    Z.to_nat NBD_SERVER_MAX_TRANSPORT_CONNECTIONS).
    { apply (f_equal length) in Hflags. unfold usedFlags in Hflags.
      rewrite length_insert, !length_fmap in Hflags. congruence. }
    assert (Hstep : forall j, usedFlags self !! j = Some true ->
                              usedFlags self1 !! j = Some true).
    { intros j Hj. rewrite Hflags.
      destruct (decide (j = Z.to_nat (connectionId r))) as [-> | Hne].
      - apply list_lookup_insert_eq. apply lookup_lt_Some in Hj. exact Hj.
      - rewrite list_lookup_insert_ne by congruence. exact Hj. }
    destruct (errorCode <? 0);
      [intros H; injection H as _ <- _; split; [exact Hlen1 | exact Hstep] |].
    destruct (receiveLoop turns self1 mt incoming) as [[[result2 self2] sent2] |] eqn:Hl;
      simpl; [| discriminate].
    intros H. injection H as _ <- _.
    destruct (IH _ _ _ _ _ Hlen1 Hl) as [Hlen2 Hrest].
    split; [exact Hlen2 |]. intros j Hj. apply Hrest, Hstep, Hj.
Qed.

(** X18.  [nimbleServerUpdate] never takes a slot out of use: every slot in
    use before the call is in use after it, however many datagrams it
    drained and whatever they were, and the array keeps its 64 slots.  The
    request handlers are taken to leave the flag alone. *)
Theorem update_keeps_slots_in_use (self : NimbleServer) (now : Z) (incoming : list Received)
  (result : Z) (self' : NimbleServer) (sent : list (Z * list Z)) :
  length (transportConnections self) = Z.to_nat NBD_SERVER_MAX_TRANSPORT_CONNECTIONS ->
  nimbleServerUpdate self now incoming = Some (result, self', sent) ->
  length (transportConnections self') = Z.to_nat NBD_SERVER_MAX_TRANSPORT_CONNECTIONS /\
  forall j, usedFlags self !! j = Some true -> usedFlags self' !! j = Some true.
Proof.
  intros Hlen. unfold nimbleServerUpdate, nimbleServerReadFromMultiTransport.
  destruct (receiveLoop 32 self (multiTransport self) incoming) as [[[code self1] sent1] |]
    eqn:Hl; simpl; [| discriminate].
  intros H. injection H as _ <- _.
  exact (receiveLoop_usedFlags _ _ _ _ _ _ _ Hlen Hl).
Qed.

End ArrivalFacts.

Lemma arriving_datagram_connects_slot_witness :
  (exists tc', arrayAt (transportConnections joinedServer) (connectionId joinDatagram) = Some tc' /\
               tcIsUsed tc' = true) /\
  (forall j, j <> Z.to_nat (connectionId joinDatagram) ->
     usedFlags joinedServer !! j = usedFlags freshServer !! j).
Proof.
  apply (arriving_datagram_connects_slot (collaborators := modelCollaborators)
           model_handlers_keep_isUsed freshServer 7 joinDatagram 5 joinedServer
           [(0, [0; 0; 1; 1; 1])]);
    vm_compute; reflexivity.
Defined.

(** The same JoinGame request, handed to the feed on the fresh server. *)
Lemma direct_feed_does_not_connect_witness :
  exists tc',
    transportConnections
      (snd (fst (default (0, freshServer, [])
                         (nimbleServerFeed freshServer 0 joinAgain 3 (fun _ => 0)))))
      !! Z.to_nat 0 = Some tc' /\
    tcIsUsed tc' = false.
Proof.
  apply (direct_feed_does_not_connect (collaborators := modelCollaborators)
           model_handlers_keep_isUsed freshServer 0 joinAgain 3 (fun _ => 0)
           (resetSlot 0 blankTransportConnection) 0 _ [[0; 0; 1; 1; 1]]);
    vm_compute; reflexivity.
Defined.

Lemma update_keeps_slots_in_use_witness :
  let after_update :=
    snd (fst (default (0, joinedServer, []) (nimbleServerUpdate joinedServer 0 [joinDatagram]))) in
  length (transportConnections after_update) = Z.to_nat NBD_SERVER_MAX_TRANSPORT_CONNECTIONS /\
  forall j, usedFlags joinedServer !! j = Some true -> usedFlags after_update !! j = Some true.
Proof.
  intros after_update.
  apply (update_keeps_slots_in_use (collaborators := modelCollaborators)
           model_handlers_keep_isUsed joinedServer 0 [joinDatagram]
           (fst (fst (default (0, joinedServer, [])
                              (nimbleServerUpdate joinedServer 0 [joinDatagram]))))
           after_update
           (snd (default (0, joinedServer, [])
                         (nimbleServerUpdate joinedServer 0 [joinDatagram]))));
    vm_compute; reflexivity.
Defined.

(** ** server.c: the snapshot request at the edges, and a new game *)

(** X19.  Right at a snapshot, [nimbleServerMustProvideGameState] answers
    false.  With the snapshot ahead of the write head it answers true: the
    [StepId] difference wraps around to more than 80, as long as the snapshot
    is less than 2^32 - 80 steps ahead. *)
Theorem snapshot_at_or_ahead_of_write_head (self : NimbleServer) :
  let head := expectedWriteId (authoritativeSteps (game self)) in
  let snapshot := stepId (latestState (game self)) in
  (snapshot = head -> nimbleServerMustProvideGameState self = false) /\
  (0 <= head < snapshot -> snapshot < 2 ^ 32 -> snapshot - head < 2 ^ 32 - 80 ->
   nimbleServerMustProvideGameState self = true).
Proof.
  intros head snapshot.
  assert (He : nimbleServerMustProvideGameState self = (stepIdSub head snapshot >? 80)).
  { unfold nimbleServerMustProvideGameState. fold head. fold snapshot.
    apply size_t_int_gt; [apply stepIdSub_range |].
    unfold NBD_REASONABLE_NUMBER_OF_STEPS_TO_CATCHUP_FOR_JOINERS. lia. }
  rewrite He. split.
  - intros ->. unfold stepIdSub, uint32, wrap. rewrite Z.sub_diag. reflexivity.
  - intros H1 H2 H3.
    assert (Hd : stepIdSub head snapshot = head - snapshot + 2 ^ 32).
    { unfold stepIdSub, uint32, wrap. symmetry. apply (Z.mod_unique _ _ (-1)); lia. }
    rewrite Hd. apply Z.gtb_lt. lia.
Qed.

Lemma snapshot_at_or_ahead_of_write_head_witness :
  nimbleServerMustProvideGameState (memoryWith (gameAt 16 16 0 16)) = false /\
  nimbleServerMustProvideGameState (memoryWith (gameAt 10 15 5 16)) = true.
Proof.
  split.
  - apply (snapshot_at_or_ahead_of_write_head (memoryWith (gameAt 16 16 0 16))). reflexivity.
  - apply (snapshot_at_or_ahead_of_write_head (memoryWith (gameAt 10 15 5 16)));
      simpl; lia.
Defined.

Section NewGameFacts.
Context {collaborators : ServerCollaborators} {gameCollaborators : GameCollaborators}.

(** X20.  A new game keeps the transport slots: [nimbleServerReInitWithGame]
    answers 0, zeroes [statsCounter] and does not touch the array of
    transport connections, so a slot in use before it still refuses
    [nimbleServerConnectionConnected] with -44 after it. *)
Theorem new_game_keeps_slots (self : NimbleServer) (gameState : list Z)
  (gameStateOctetCount : Z) (stepId_ : StepId) (now : Z) (connectionIndex : Z)
  (tc : NimbleServerTransportConnection) :
  0 <= connectionIndex < 256 ->
  transportConnections self !! Z.to_nat connectionIndex = Some tc ->
  tcIsUsed tc = true ->
  let answer := nimbleServerReInitWithGame self gameState gameStateOctetCount stepId_ now in
  fst answer = 0 /\
  statsCounter (snd answer) = 0 /\
  transportConnections (snd answer) = transportConnections self /\
  nimbleServerConnectionConnected (snd answer) connectionIndex = Some (-44, snd answer).
Proof.
  intros Hi Htc Hused answer. subst answer. unfold nimbleServerReInitWithGame. cbn [fst snd].
  repeat split.
  unfold nimbleServerConnectionConnected. rewrite uint8_small by lia.
  rewrite arrayAt_nonneg by lia. cbn [transportConnections]. rewrite Htc. simpl.
  rewrite Hused. reflexivity.
Qed.

End NewGameFacts.

Lemma new_game_keeps_slots_witness :
  let answer := nimbleServerReInitWithGame joinedServer [0xBB] 1 32 0 in
  fst answer = 0 /\
  statsCounter (snd answer) = 0 /\
  transportConnections (snd answer) = transportConnections joinedServer /\
  nimbleServerConnectionConnected (snd answer) 0 = Some (-44, snd answer).
Proof.
  apply (new_game_keeps_slots (collaborators := modelCollaborators)
           (gameCollaborators := modelGameCollaborators) joinedServer [0xBB] 1 32 0 0
           (default blankTransportConnection (transportConnections joinedServer !! O)));
    [lia | vm_compute; reflexivity | vm_compute; reflexivity].
Defined.
